(** * Regime-change detection: the MDL scanner of [regime_change_utils.py]

    A shallow embedding of [log_likelihood] and [detect_regime_change]
    and the properties of their specification, and of the two sources of
    series in [data_sources.py]: [synthetic_coin_generator] and the
    up and down indicators of [StockDataGenerator.closing_prices].

    Numbers.  A NumPy [float64] is embedded as an extended real: a real
    number, one of the two infinities, or NaN.  The arithmetic is exact
    (no rounding, no overflow); the special values follow IEEE 754, so
    that [log 0 = -inf], [0 * inf = nan], [0 / 0 = nan] and every
    comparison with NaN is false.  Python integers are [Z]; positions in
    a list are [nat].  The properties that rest on finite smoothed values
    take the smoothing factor between 0 and 1, the range it is meant for:
    there every smoothed value lies within the bounds of the raw ones, so
    that the exact arithmetic leaves out no overflow of the source.

    Errors.  A Python exception is a [Raise] in the [result] monad.

    Labels.  The labels of a series are of a type [Label] that the
    development leaves open, and [pd.to_datetime] is a function on it
    that may raise; labels that are dates already are those it returns
    unchanged. *)

From Stdlib Require Import Reals Lra Lia ZArith List Bool Arith.
Import ListNotations.

(** ** Exceptions *)

Inductive exn : Type :=
| ValueError      (* min() of an empty sequence; length mismatch in pd.Series *)
| IndexError      (* list index out of range *)
| ParserError.    (* pd.to_datetime on something that is no date *)

Inductive result (A : Type) : Type :=
| Ok (a : A)
| Raise (e : exn).

Arguments Ok {A} a.
Arguments Raise {A} e.

Definition bind {A B : Type} (c : result A) (f : A -> result B) : result B :=
  match c with
  | Ok a => f a
  | Raise e => Raise e
  end.

Notation "x <- c ;; k" := (bind c (fun x => k))
  (at level 61, c at next level, right associativity).

Definition raises {A : Type} (c : result A) : Prop :=
  exists e, c = Raise e.

(** ** float64 as extended reals *)

Inductive float64 : Type :=
| Fin (x : R)
| PInf
| NInf
| NaN.

Module F64.

Definition t : Type := float64.

Definition R_ltb (x y : R) : bool := if Rlt_dec x y then true else false.
Definition R_eqb (x y : R) : bool := if Req_dec_T x y then true else false.

Definition inf (negative : bool) : t := if negative then NInf else PInf.

Definition of_Z (z : Z) : t := Fin (IZR z).

Definition neg (a : t) : t :=
  match a with
  | Fin x => Fin (- x)
  | PInf => NInf
  | NInf => PInf
  | NaN => NaN
  end.

Definition add (a b : t) : t :=
  match a, b with
  | NaN, _ | _, NaN => NaN
  | Fin x, Fin y => Fin (x + y)
  | PInf, NInf | NInf, PInf => NaN
  | PInf, _ | _, PInf => PInf
  | NInf, _ | _, NInf => NInf
  end.

Definition sub (a b : t) : t := add a (neg b).

(* an infinity times the finite [x]: the sign follows [x], and
   [inf * 0] is NaN *)
Definition scale_inf (negative : bool) (x : R) : t :=
  if R_ltb 0 x then inf negative
  else if R_ltb x 0 then inf (negb negative)
  else NaN.

Definition mul (a b : t) : t :=
  match a, b with
  | NaN, _ | _, NaN => NaN
  | Fin x, Fin y => Fin (x * y)
  | Fin x, PInf | PInf, Fin x => scale_inf false x
  | Fin x, NInf | NInf, Fin x => scale_inf true x
  | PInf, PInf | NInf, NInf => PInf
  | PInf, NInf | NInf, PInf => NInf
  end.

(* division of a sum by the number of its terms, as [np.mean] does:
   [0 / 0] is NaN *)
Definition div_count (a : t) (n : nat) : t :=
  match n with
  | O => NaN
  | S _ =>
      match a with
      | Fin x => Fin (x / INR n)
      | other => other
      end
  end.

(* np.log: -inf at zero, NaN below it *)
Definition log (a : t) : t :=
  match a with
  | Fin x =>
      if R_ltb 0 x then Fin (ln x)
      else if R_eqb x 0 then NInf
      else NaN
  | PInf => PInf
  | NInf => NaN
  | NaN => NaN
  end.

Definition ltb (a b : t) : bool :=
  match a, b with
  | NaN, _ | _, NaN => false
  | Fin x, Fin y => R_ltb x y
  | NInf, NInf => false
  | NInf, _ => true
  | _, NInf => false
  | PInf, _ => false
  | Fin _, PInf => true
  end.

Definition eqb (a b : t) : bool :=
  match a, b with
  | Fin x, Fin y => R_eqb x y
  | PInf, PInf | NInf, NInf => true
  | _, _ => false
  end.

Definition sum (l : list t) : t := fold_left add l (Fin 0).

End F64.

(** ** Python and NumPy primitives *)

(* the position a slice bound denotes in a list of [len] elements:
   a negative bound counts from the end, and both are clamped *)
Definition slice_bound (len : nat) (i : Z) : nat :=
  if (i <? 0)%Z then Z.to_nat (Z.max 0 (i + Z.of_nat len))
  else Nat.min (Z.to_nat i) len.

(* l[start:] *)
Definition py_slice_from {A : Type} (l : list A) (start : Z) : list A :=
  skipn (slice_bound (length l) start) l.

(* l[start:stop] *)
Definition py_slice {A : Type} (l : list A) (start stop : Z) : list A :=
  let a := slice_bound (length l) start in
  let b := slice_bound (length l) stop in
  firstn (b - a) (skipn a l).

(* l[n] for a position n >= 0 *)
Definition py_getitem {A : Type} (l : list A) (n : nat) : result A :=
  match nth_error l n with
  | Some x => Ok x
  | None => Raise IndexError
  end.

(* l[-1] *)
Fixpoint py_last {A : Type} (l : list A) : result A :=
  match l with
  | [] => Raise IndexError
  | [x] => Ok x
  | _ :: l' => py_last l'
  end.

(* range(start, stop) *)
Definition py_range (start stop : nat) : list nat := seq start (stop - start).

(* np.arange(start, stop) *)
Definition np_arange (start stop : nat) : list Z :=
  map Z.of_nat (py_range start stop).

(* min(w).  A Python object is told apart from an equal one by its
   identity: the object min() returns is given with its position in w.
   The scan keeps the first object and replaces it by every later one
   that is [<] the one kept. *)
Fixpoint min_scan (w : list float64) (i : nat) (best_pos : nat) (best : float64)
  : nat * float64 :=
  match w with
  | [] => (best_pos, best)
  | x :: w' =>
      if F64.ltb x best then min_scan w' (S i) i x
      else min_scan w' (S i) best_pos best
  end.

Definition py_min (w : list float64) : result (nat * float64) :=
  match w with
  | [] => Raise ValueError
  | x :: w' => Ok (min_scan w' 1 0 x)
  end.

(* w.index(obj): the first position holding obj itself or a value [==] it *)
Fixpoint index_scan (w : list float64) (i : nat) (obj : nat * float64) : result nat :=
  match w with
  | [] => Raise ValueError
  | x :: w' =>
      if (i =? fst obj) || F64.eqb x (snd obj) then Ok i
      else index_scan w' (S i) obj
  end.

Definition py_index (w : list float64) (obj : nat * float64) : result nat :=
  index_scan w 0 obj.

(* np.mean: NaN on an empty list (NumPy warns, it does not raise) *)
Definition np_mean (l : list float64) : float64 :=
  F64.div_count (F64.sum l) (length l).

(* sum() of a list of Python integers *)
Definition py_sum (l : list Z) : Z := fold_left Z.add l 0%Z.

(** ** log_likelihood *)

Definition log_likelihood (time_series : list Z) : result float64 :=
  let p := np_mean (map F64.of_Z time_series) in
  let heads := py_sum time_series in
  let tails := (Z.of_nat (length time_series) - heads)%Z in
  Ok (F64.add
        (F64.mul (F64.of_Z heads) (F64.log (F64.add p (Fin 1e-20))))
        (F64.mul (F64.of_Z tails)
                 (F64.log (F64.add (F64.sub (Fin 1) p) (Fin 1e-20))))).

(** ** detect_regime_change *)

Section Scanner.

(* the labels of the series, and pd.to_datetime on one of them *)
Variable Label : Type.
Variable to_datetime : Label -> result Label.

(* a Python value that indexes the returned series or names the
   regime change: a position, or a (converted) label *)
Inductive pyval : Type :=
| PyInt (n : Z)
| PyLabel (l : Label).

(* the variables of the function that the loop assigns; the list
   regime_change_indicators is set to [] and never used again *)
Record state : Type := mkState {
  mdl : list float64;
  regime_change_date : option pyval
}.

Definition is_None {A : Type} (o : option A) : bool :=
  match o with None => true | Some _ => false end.

(* pd.Series(data, index=index), data being a list: pandas raises
   ValueError when the index has another length than the data *)
Definition pd_Series (data : list float64) (index : list pyval)
  : result (list (pyval * float64)) :=
  if length data =? length index then Ok (combine index data)
  else Raise ValueError.

Section Loop.

Variable time_series : list Z.
Variable time_series_labels : option (list Label).
Variable stride : Z.
Variable k : float64.

(* one turn of [for n in range(1, len(time_series))] *)
Definition loop_body (st : state) (n : nat) : result state :=
  ll_left <- log_likelihood (firstn n time_series) ;;
  ll_right <- log_likelihood (skipn n time_series) ;;
  let neg_log_likelihood := F64.sub (F64.neg ll_left) ll_right in
  let penalty :=
    F64.mul (Fin 0.5)
      (F64.add (F64.log (F64.of_Z (Z.of_nat n)))
               (F64.log (F64.of_Z (Z.of_nat (length time_series) - Z.of_nat n)))) in
  mdl' <- (if n =? 1 then
             Ok (mdl st ++ [F64.add neg_log_likelihood penalty])
           else
             prev <- py_last (mdl st) ;;
             Ok (mdl st ++
                   [F64.add (F64.mul prev (F64.sub (Fin 1) k))
                            (F64.mul (F64.add neg_log_likelihood penalty) k)])) ;;
  let detection_window := py_slice_from mdl' (- (2 * stride)) in
  m <- py_min detection_window ;;
  min_ <- py_index detection_window m ;;
  if (20 <? n) && is_None (regime_change_date st) then
    if (0 <? min_) && (Z.of_nat min_ <? 2 * stride)%Z then
      if F64.ltb (np_mean (firstn min_ detection_window))
                 (np_mean (skipn min_ detection_window)) then
        match time_series_labels with
        | Some labels =>
            label <- py_getitem labels n ;;
            date <- to_datetime label ;;
            Ok (mkState mdl' (Some (PyLabel date)))
        | None => Ok (mkState mdl' (Some (PyInt (Z.of_nat n))))
        end
      else Ok (mkState mdl' (regime_change_date st))
    else Ok (mkState mdl' (regime_change_date st))
  else Ok (mkState mdl' (regime_change_date st)).

(* The three parts of a turn, named for the proofs; [loop_body_parts]
   below shows that a turn is their composition. *)

(* the value the turn appends to mdl *)
Definition appended (st : state) (n : nat) : result float64 :=
  ll_left <- log_likelihood (firstn n time_series) ;;
  ll_right <- log_likelihood (skipn n time_series) ;;
  let neg_log_likelihood := F64.sub (F64.neg ll_left) ll_right in
  let penalty :=
    F64.mul (Fin 0.5)
      (F64.add (F64.log (F64.of_Z (Z.of_nat n)))
               (F64.log (F64.of_Z (Z.of_nat (length time_series) - Z.of_nat n)))) in
  if n =? 1 then Ok (F64.add neg_log_likelihood penalty)
  else
    prev <- py_last (mdl st) ;;
    Ok (F64.add (F64.mul prev (F64.sub (Fin 1) k))
                (F64.mul (F64.add neg_log_likelihood penalty) k)).

(* the test on the detection window *)
Definition window_check (detection_window : list float64) : result bool :=
  m <- py_min detection_window ;;
  min_ <- py_index detection_window m ;;
  Ok ((0 <? min_) && (Z.of_nat min_ <? 2 * stride)%Z &&
      F64.ltb (np_mean (firstn min_ detection_window))
              (np_mean (skipn min_ detection_window))).

(* the assignment to regime_change_date *)
Definition assign (mdl' : list float64) (n : nat) : result state :=
  match time_series_labels with
  | Some labels =>
      label <- py_getitem labels n ;;
      date <- to_datetime label ;;
      Ok (mkState mdl' (Some (PyLabel date)))
  | None => Ok (mkState mdl' (Some (PyInt (Z.of_nat n))))
  end.

(* the turns for the positions [ns], in order, from the state [st] *)
Fixpoint run_loop (ns : list nat) (st : state) : result state :=
  match ns with
  | [] => Ok st
  | n :: ns' => st' <- loop_body st n ;; run_loop ns' st'
  end.

Definition init_state : state := mkState [] None.

(* the state after the turns for the splits 1, ..., n *)
Definition state_after (n : nat) : result state :=
  run_loop (py_range 1 (S n)) init_state.

Definition detect_regime_change
  : result (list (pyval * float64) * option pyval) :=
  st <- run_loop (py_range 1 (length time_series)) init_state ;;
  match time_series_labels with
  | None =>
      series <- pd_Series (mdl st)
                  (map PyInt (np_arange 1 (length time_series))) ;;
      Ok (series, regime_change_date st)
  | Some labels =>
      series <- pd_Series (mdl st) (map PyLabel (py_slice labels 1 (-1))) ;;
      Ok (series, regime_change_date st)
  end.

End Loop.

(* labels that are dates already: pd.to_datetime returns them as they are *)
Definition timestamps (labels : list Label) : Prop :=
  forall l, In l labels -> to_datetime l = Ok l.

(* labels, if any, that reach every split of the series *)
Definition labels_cover (time_series : list Z) (labels : option (list Label)) : Prop :=
  match labels with
  | None => True
  | Some ls => length time_series <= length ls /\ timestamps ls
  end.

(* labels, if any, one more than the observations: the dates of the
   prices whose up and down moves are the observations *)
Definition labels_fit (time_series : list Z) (labels : option (list Label)) : Prop :=
  match labels with
  | None => True
  | Some ls => length ls = length time_series + 1 /\ timestamps ls
  end.

(* the value that names the split n: n itself, or labels[n] *)
Definition names_split (labels : option (list Label)) (n : nat) (v : pyval) : Prop :=
  match labels with
  | None => v = PyInt (Z.of_nat n)
  | Some ls => exists l, nth_error ls n = Some l /\ v = PyLabel l
  end.

End Scanner.

Arguments PyInt {Label} n.
Arguments PyLabel {Label} l.
Arguments mkState {Label} mdl regime_change_date.
Arguments mdl {Label} s.
Arguments regime_change_date {Label} s.
Arguments init_state {Label}.
Arguments pd_Series {Label} data index.
Arguments loop_body {Label} to_datetime time_series time_series_labels stride k st n.
Arguments appended {Label} time_series k st n.
Arguments assign {Label} to_datetime time_series_labels mdl' n.
Arguments run_loop {Label} to_datetime time_series time_series_labels stride k ns st.
Arguments state_after {Label} to_datetime time_series time_series_labels stride k n.
Arguments detect_regime_change {Label} to_datetime time_series time_series_labels stride k.
Arguments timestamps {Label} to_datetime labels.
Arguments labels_cover {Label} to_datetime time_series labels.
Arguments labels_fit {Label} to_datetime time_series labels.
Arguments names_split {Label} labels n v.

(** ** Definitions that follow the specification's words *)

(* an observation sequence of 0s and 1s *)
Definition binary (time_series : list Z) : bool :=
  forallb (fun x => (x =? 0)%Z || (x =? 1)%Z) time_series.

(* the value the segment likelihood estimator returns *)
Definition loglik (observations : list Z) : float64 :=
  match log_likelihood observations with
  | Ok v => v
  | Raise _ => NaN
  end.

(* raw description length at the split n of the observations:
   [-loglik(obs[0:n]) - loglik(obs[n:k]) + 0.5 * (log n + log (k - n))] *)
Definition raw (observations : list Z) (n : nat) : float64 :=
  F64.add
    (F64.sub (F64.neg (loglik (firstn n observations)))
             (loglik (skipn n observations)))
    (F64.mul (Fin 0.5)
       (F64.add (F64.log (F64.of_Z (Z.of_nat n)))
                (F64.log (F64.of_Z (Z.of_nat (length observations - n)))))).

(* the smoothed series: seeded with the raw value at split 1, then
   [smoothed[n] = smoothed[n-1] * (1 - k_smooth) + raw[n] * k_smooth] *)
Fixpoint smoothed (observations : list Z) (k_smooth : float64) (n : nat) : float64 :=
  match n with
  | O => NaN
  | S m =>
      match m with
      | O => raw observations 1
      | S _ =>
          F64.add (F64.mul (smoothed observations k_smooth m)
                           (F64.sub (Fin 1) k_smooth))
                  (F64.mul (raw observations n) k_smooth)
      end
  end.

(* the value appended at the split n to the series [prev] so far *)
Definition next_value (observations : list Z) (k_smooth : float64)
  (prev : list float64) (n : nat) : float64 :=
  if n =? 1 then raw observations 1
  else F64.add (F64.mul (last prev NaN) (F64.sub (Fin 1) k_smooth))
               (F64.mul (raw observations n) k_smooth).

(* the last [m] values of a list, fewer if it has fewer *)
Definition trailing_window {A : Type} (m : nat) (l : list A) : list A :=
  skipn (length l - m) l.

Definition Rsum (l : list R) : R := fold_right Rplus 0%R l.

Definition mean (l : list R) : R := (Rsum l / INR (length l))%R.

(* [i] is the index of the minimum of [w] (the first one, if the minimum
   occurs more than once) *)
Definition min_idx (w : list R) (i : nat) : Prop :=
  i < length w /\
  (forall j, j < length w -> (nth i w 0 <= nth j w 0)%R) /\
  (forall j, j < i -> (nth i w 0 < nth j w 0)%R).

(* the detection rule: the minimum lies strictly inside the window and
   the mean before it is strictly less than the mean from it onward *)
Definition dip (w : list R) : Prop :=
  exists i, min_idx w i /\
            0 < i /\ i < length w - 1 /\
            (mean (firstn i w) < mean (skipn i w))%R.

(* the detection window after the split n of a scan, and the rule on it *)
Definition window_at (observations : list Z) (k_smooth : float64) (stride : Z)
  (n : nat) : list float64 :=
  trailing_window (Z.to_nat (2 * stride))
    (map (smoothed observations k_smooth) (seq 1 n)).

Definition dip_at (observations : list Z) (k_smooth : float64) (stride : Z)
  (n : nat) : Prop :=
  exists w : list R, map Fin w = window_at observations k_smooth stride n /\ dip w.

(** ** data_sources.py *)

Inductive source_exn : Type :=
| BreakpointException   (* raise Exception("Breakpoint must be defined ...") *)
| TupleIndexError.      (* probabilities[...] out of range *)

Inductive outcome (A : Type) : Type :=
| Yields (a : A)
| Fails (e : source_exn).

Arguments Yields {A} a.
Arguments Fails {A} e.

Definition R_leb (x y : R) : bool := if Rle_dec x y then true else false.

(* [<=] on float64 *)
Definition f64_leb (a b : float64) : bool :=
  match a, b with
  | NaN, _ | _, NaN => false
  | Fin x, Fin y => R_leb x y
  | NInf, _ => true
  | _, PInf => true
  | _, _ => false
  end.

Section Generator.

(* the value the call number i of np.random.random() returns *)
Variable random : nat -> float64.

(* for i in range(k): yield (random() <= probabilities[i >= breakpoint]) * 1
   -- the values, collected in a list *)
Fixpoint coin_loop (probabilities : list float64) (breakpoint : Z)
  (indices : list nat) : outcome (list Z) :=
  match indices with
  | [] => Yields []
  | i :: rest =>
      match nth_error probabilities
              (if (breakpoint <=? Z.of_nat i)%Z then 1 else 0) with
      | None => Fails TupleIndexError
      | Some p =>
          match coin_loop probabilities breakpoint rest with
          | Yields l => Yields ((if f64_leb (random i) p then 1%Z else 0%Z) :: l)
          | Fails e => Fails e
          end
      end
  end.

(* list(synthetic_coin_generator(probabilities, breakpoint, k)) *)
Definition synthetic_coin_generator (probabilities : list float64)
  (breakpoint k : Z) : outcome (list Z) :=
  if (breakpoint <=? 0)%Z || (k <=? breakpoint)%Z then Fails BreakpointException
  else coin_loop probabilities breakpoint (py_range 0 (Z.to_nat k)).

End Generator.

Section StockData.

Variables Date Price DateLabel : Type.

(* [a > b] on two closing prices as the data frame holds them *)
Variable price_gt : Price -> Price -> bool.

(* pd.to_datetime(str(date)) *)
Variable date_label : Date -> DateLabel.

(* [int(close.iloc[i] > close.iloc[i-1]) for i in indices] *)
Fixpoint up_down (close : list Price) (indices : list nat) : result (list Z) :=
  match indices with
  | [] => Ok []
  | i :: rest =>
      a <- py_getitem close i ;;
      b <- py_getitem close (i - 1) ;;
      l <- up_down close rest ;;
      Ok ((if price_gt a b then 1%Z else 0%Z) :: l)
  end.

(* StockDataGenerator.closing_prices with real=False, from the rows
   [data_subset] that the selection by date and the sorting leave *)
Definition closing_prices (data_subset : list (Date * Price))
  : result (list Z * list DateLabel) :=
  let data_dabels := map date_label (map fst data_subset) in
  indicators <- up_down (map snd data_subset)
                  (py_range 1 (length data_subset)) ;;
  Ok (indicators, data_dabels).

End StockData.

Arguments up_down {Price} price_gt close indices.
Arguments closing_prices {Date Price DateLabel} price_gt date_label data_subset.

(** * Properties *)

(** ** The primitives *)

Lemma slice_bound_le (len : nat) (i : Z) : slice_bound len i <= len.
Proof.
  unfold slice_bound. destruct (Z.ltb_spec i 0); lia.
Qed.

Lemma slice_bound_neg (len : nat) (m : nat) :
  0 < m -> slice_bound len (- Z.of_nat m) = len - m.
Proof.
  intros Hm. unfold slice_bound. destruct (Z.ltb_spec (- Z.of_nat m) 0); lia.
Qed.

(* for a positive stride, mdl[-(2*stride):] is the trailing window of
   2*stride values; a stride of 0 gives the whole list *)
Lemma py_slice_from_trailing {A : Type} (l : list A) (stride : Z) :
  (0 < stride)%Z ->
  py_slice_from l (- (2 * stride)) = trailing_window (Z.to_nat (2 * stride)) l.
Proof.
  intros Hs. unfold py_slice_from, trailing_window.
  replace (- (2 * stride))%Z with (- Z.of_nat (Z.to_nat (2 * stride)))%Z by lia.
  rewrite slice_bound_neg by lia. reflexivity.
Qed.

Lemma py_slice_from_nonempty {A : Type} (l : list A) (stride : Z) :
  (0 <= stride)%Z -> l <> [] -> py_slice_from l (- (2 * stride)) <> [].
Proof.
  intros Hs Hl Hw.
  assert (0 < length l) by (destruct l; [congruence | simpl; lia]).
  destruct (Z.eq_dec stride 0) as [-> | Hne].
  - unfold py_slice_from in Hw. simpl in Hw. now destruct l.
  - rewrite py_slice_from_trailing in Hw by lia.
    apply (f_equal (@length A)) in Hw. unfold trailing_window in Hw.
    rewrite length_skipn in Hw. change (length (@nil A)) with 0 in Hw. lia.
Qed.

Lemma py_last_ok {A : Type} (l : list A) (d : A) :
  l <> [] -> py_last l = Ok (last l d).
Proof.
  induction l as [| x l IH]; intros Hl; [congruence |].
  destruct l as [| y l]; [reflexivity |].
  change (py_last (y :: l) = Ok (last (y :: l) d)). apply IH. discriminate.
Qed.

Lemma py_getitem_ok {A : Type} (l : list A) (n : nat) (d : A) :
  n < length l -> py_getitem l n = Ok (nth n l d).
Proof.
  intros Hn. unfold py_getitem.
  rewrite (nth_error_nth' l d Hn). reflexivity.
Qed.

Lemma py_range_length (a b : nat) : length (py_range a b) = b - a.
Proof. apply length_seq. Qed.

Lemma In_firstn {A : Type} (n : nat) (l : list A) (x : A) :
  In x (firstn n l) -> In x l.
Proof.
  intros H. rewrite <- (firstn_skipn n l). apply in_or_app. now left.
Qed.

Lemma In_skipn {A : Type} (n : nat) (l : list A) (x : A) :
  In x (skipn n l) -> In x l.
Proof.
  intros H. rewrite <- (firstn_skipn n l). apply in_or_app. now right.
Qed.

Lemma slice_bound_1 (len : nat) : slice_bound len 1 = Nat.min 1 len.
Proof. reflexivity. Qed.

Lemma slice_bound_m1 (len : nat) : slice_bound len (-1) = len - 1.
Proof. apply (slice_bound_neg len 1). lia. Qed.

Lemma py_slice_1_m1_length {A : Type} (l : list A) :
  length (py_slice l 1 (-1)) = length l - 2.
Proof.
  unfold py_slice. rewrite length_firstn, length_skipn.
  rewrite slice_bound_1, slice_bound_m1. lia.
Qed.

(* l[1:-1] holds l[1], ..., l[len-2] *)
Lemma py_slice_1_m1_nth {A : Type} (l : list A) (d : A) (i : nat) :
  i < length l - 2 -> nth i (py_slice l 1 (-1)) d = nth (S i) l d.
Proof.
  intros Hi. unfold py_slice. rewrite slice_bound_1, slice_bound_m1.
  rewrite nth_firstn.
  replace (i <? _) with true by (symmetry; apply Nat.ltb_lt; lia).
  replace (Nat.min 1 (length l)) with 1 by lia.
  rewrite nth_skipn. reflexivity.
Qed.

Lemma py_slice_1_m1_incl {A : Type} (l : list A) :
  incl (py_slice l 1 (-1)) l.
Proof.
  intros x Hx. unfold py_slice in Hx.
  apply In_firstn in Hx. apply In_skipn in Hx. exact Hx.
Qed.

(** *** min() and index() *)

Lemma min_scan_bound (w : list float64) :
  forall i best_pos best,
    best_pos < i -> fst (min_scan w i best_pos best) < i + length w.
Proof.
  induction w as [| x w IH]; intros i bp b Hbp; simpl.
  - lia.
  - destruct (F64.ltb x b).
    + specialize (IH (S i) i x). lia.
    + specialize (IH (S i) bp b). lia.
Qed.

Lemma py_min_ok (w : list float64) :
  w <> [] -> exists obj, py_min w = Ok obj /\ fst obj < length w.
Proof.
  destruct w as [| x w]; intros Hw; [congruence |].
  eexists; split; [reflexivity |].
  pose proof (min_scan_bound w 1 0 x). simpl. lia.
Qed.

Lemma index_scan_ok (w : list float64) (obj : nat * float64) :
  forall i, i <= fst obj -> fst obj < i + length w ->
            exists j, index_scan w i obj = Ok j /\ i <= j /\ j <= fst obj.
Proof.
  induction w as [| x w IH]; intros i Hlo Hhi; simpl in *.
  - lia.
  - destruct (Nat.eqb_spec i (fst obj)) as [E | E]; simpl.
    + exists i. repeat split; lia.
    + destruct (F64.eqb x (snd obj)).
      * exists i. repeat split; lia.
      * destruct (IH (S i)) as (j & Hj & ?); [lia | lia |].
        exists j. split; [exact Hj | lia].
Qed.

Lemma py_index_ok (w : list float64) (obj : nat * float64) :
  fst obj < length w -> exists j, py_index w obj = Ok j /\ j <= fst obj.
Proof.
  intros H. destruct (index_scan_ok w obj 0) as (j & Hj & _ & ?); [lia | lia |].
  exists j. split; assumption.
Qed.

(** ** One turn of the loop *)

Section Turn.

Variable Label : Type.
Variable to_datetime : Label -> result Label.
Variable time_series : list Z.
Variable time_series_labels : option (list Label).
Variable stride : Z.
Variable k : float64.

#[local] Abbreviation body := (loop_body to_datetime time_series time_series_labels stride k).
#[local] Abbreviation loop := (run_loop to_datetime time_series time_series_labels stride k).

Lemma loop_body_parts (st : state Label) (n : nat) :
  body st n =
  (x <- appended time_series k st n ;;
   c <- window_check stride (py_slice_from (mdl st ++ [x]) (- (2 * stride))) ;;
   if (20 <? n) && is_None (regime_change_date st) && c
   then assign to_datetime time_series_labels (mdl st ++ [x]) n
   else Ok (mkState (mdl st ++ [x]) (regime_change_date st))).
Proof.
  unfold loop_body, appended, window_check, assign.
  destruct (log_likelihood (firstn n time_series)) as [ll_left |]; [| reflexivity].
  destruct (log_likelihood (skipn n time_series)) as [ll_right |]; [| reflexivity].
  cbn [bind].
  destruct (n =? 1).
  - cbn [bind].
    destruct (py_min _) as [m |]; [| reflexivity]. cbn [bind].
    destruct (py_index _ m) as [min_ |]; [| reflexivity]. cbn [bind].
    destruct ((20 <? n) && is_None (regime_change_date st)); [| reflexivity].
    destruct ((0 <? min_) && (Z.of_nat min_ <? 2 * stride)%Z); [| reflexivity].
    destruct (F64.ltb _ _); reflexivity.
  - destruct (py_last (mdl st)) as [prev |]; [| reflexivity]. cbn [bind].
    destruct (py_min _) as [m |]; [| reflexivity]. cbn [bind].
    destruct (py_index _ m) as [min_ |]; [| reflexivity]. cbn [bind].
    destruct ((20 <? n) && is_None (regime_change_date st)); [| reflexivity].
    destruct ((0 <? min_) && (Z.of_nat min_ <? 2 * stride)%Z); [| reflexivity].
    destruct (F64.ltb _ _); reflexivity.
Qed.

Lemma log_likelihood_ok (l : list Z) : log_likelihood l = Ok (loglik l).
Proof. reflexivity. Qed.

(* the appended value is the smoothing of the raw description length *)
Lemma appended_ok (st : state Label) (n : nat) :
  n <= length time_series ->
  n = 1 \/ mdl st <> [] ->
  appended time_series k st n = Ok (next_value time_series k (mdl st) n).
Proof.
  intros Hn Hst. unfold appended, next_value.
  rewrite !log_likelihood_ok. cbn [bind].
  assert (Hraw :
    F64.add (F64.sub (F64.neg (loglik (firstn n time_series)))
                     (loglik (skipn n time_series)))
      (F64.mul (Fin 0.5)
         (F64.add (F64.log (F64.of_Z (Z.of_nat n)))
            (F64.log (F64.of_Z (Z.of_nat (length time_series) - Z.of_nat n)))))
    = raw time_series n).
  { unfold raw. now rewrite Nat2Z.inj_sub by exact Hn. }
  rewrite Hraw.
  destruct (Nat.eqb_spec n 1) as [-> | Hne]; [reflexivity |].
  destruct Hst as [-> | Hst]; [congruence |].
  rewrite (py_last_ok (mdl st) NaN Hst). reflexivity.
Qed.

Lemma window_check_ok (w : list float64) :
  w <> [] -> exists c, window_check stride w = Ok c.
Proof.
  intros Hw. unfold window_check.
  destruct (py_min_ok w Hw) as (obj & -> & Hpos). cbn [bind].
  destruct (py_index_ok w obj Hpos) as (j & -> & _). cbn [bind].
  eexists; reflexivity.
Qed.

Lemma appended_total (st : state Label) (n : nat) :
  n = 1 \/ mdl st <> [] -> exists x, appended time_series k st n = Ok x.
Proof.
  intros Hst. unfold appended. rewrite !log_likelihood_ok. cbn [bind].
  destruct (Nat.eqb_spec n 1) as [-> | Hne]; [eexists; reflexivity |].
  destruct Hst as [-> | Hst]; [congruence |].
  rewrite (py_last_ok (mdl st) NaN Hst). eexists; reflexivity.
Qed.

Lemma window_ok (l : list float64) (x : float64) :
  (0 <= stride)%Z ->
  exists c, window_check stride (py_slice_from (l ++ [x]) (- (2 * stride))) = Ok c.
Proof.
  intros Hs. apply window_check_ok. apply py_slice_from_nonempty; [exact Hs |].
  destruct l; discriminate.
Qed.

(* a turn that finds regime_change_date set leaves it as it is *)
Lemma body_locked (st : state Label) (n : nat) (v : pyval Label) :
  (0 <= stride)%Z ->
  n = 1 \/ mdl st <> [] ->
  regime_change_date st = Some v ->
  exists x, body st n = Ok (mkState (mdl st ++ [x]) (Some v)).
Proof.
  intros Hs Hst Hv. rewrite loop_body_parts.
  destruct (appended_total st n Hst) as [x ->]. cbn [bind].
  destruct (window_ok (mdl st) x Hs) as [c ->]. cbn [bind].
  rewrite Hv. cbn [is_None]. rewrite andb_false_r. cbn [andb].
  exists x. reflexivity.
Qed.

Lemma assign_ok (mdl' : list float64) (n : nat) :
  labels_cover to_datetime time_series time_series_labels ->
  n < length time_series ->
  exists v, names_split time_series_labels n v /\
            assign to_datetime time_series_labels mdl' n = Ok (mkState mdl' (Some v)).
Proof.
  intros Hl Hn. unfold assign, names_split, labels_cover in *.
  destruct time_series_labels as [ls |].
  - destruct Hl as [Hlen Hts].
    destruct (nth_error ls n) as [l |] eqn:E.
    + exists (PyLabel l). split; [exists l; split; reflexivity |].
      unfold py_getitem. rewrite E. cbn [bind].
      rewrite (Hts l (nth_error_In _ _ E)). reflexivity.
    + apply nth_error_None in E. lia.
  - eexists; split; reflexivity.
Qed.

(* what a turn does, for labels that cover the series *)
Lemma body_ok (st : state Label) (n : nat) :
  (0 <= stride)%Z ->
  labels_cover to_datetime time_series time_series_labels ->
  n < length time_series ->
  n = 1 \/ mdl st <> [] ->
  exists c st',
    window_check stride
      (py_slice_from (mdl st ++ [next_value time_series k (mdl st) n])
                     (- (2 * stride))) = Ok c /\
    body st n = Ok st' /\
    mdl st' = mdl st ++ [next_value time_series k (mdl st) n] /\
    (if (20 <? n) && is_None (regime_change_date st) && c
     then exists v, names_split time_series_labels n v /\
                    regime_change_date st' = Some v
     else regime_change_date st' = regime_change_date st).
Proof.
  intros Hs Hl Hn Hst. rewrite loop_body_parts.
  rewrite (appended_ok st n) by (lia || assumption). cbn [bind].
  destruct (window_ok (mdl st) (next_value time_series k (mdl st) n) Hs) as [c Hc].
  rewrite Hc. cbn [bind]. exists c.
  destruct ((20 <? n) && is_None (regime_change_date st) && c).
  - destruct (assign_ok (mdl st ++ [next_value time_series k (mdl st) n]) n Hl Hn)
      as (v & Hv & ->).
    eexists. split; [reflexivity |]. split; [reflexivity |].
    split; [reflexivity |]. exists v. split; [exact Hv | reflexivity].
  - eexists. split; [reflexivity |]. split; [reflexivity |].
    split; reflexivity.
Qed.

(** ** The whole loop *)

Lemma run_loop_app (ns ms : list nat) (st : state Label) :
  loop (ns ++ ms) st = (st' <- loop ns st ;; loop ms st').
Proof.
  revert st. induction ns as [| n ns IH]; intros st; simpl.
  - reflexivity.
  - destruct (body st n) as [st1 |]; cbn [bind]; [apply IH | reflexivity].
Qed.

Lemma py_range_1_S (n : nat) : py_range 1 (S n) = seq 1 n.
Proof. unfold py_range. now rewrite Nat.sub_succ, Nat.sub_0_r. Qed.

Lemma state_after_0 :
  state_after to_datetime time_series time_series_labels stride k 0 = Ok init_state.
Proof. reflexivity. Qed.

Lemma state_after_S (n : nat) :
  state_after to_datetime time_series time_series_labels stride k (S n) =
  (st <- state_after to_datetime time_series time_series_labels stride k n ;;
   body st (S n)).
Proof.
  unfold state_after. rewrite !py_range_1_S, seq_S, run_loop_app.
  destruct (loop (seq 1 n) init_state) as [st |]; cbn [bind]; [| reflexivity].
  simpl. destruct (body st (S n)); reflexivity.
Qed.

Lemma last_smoothed (n : nat) :
  last (map (smoothed time_series k) (seq 1 (S n))) NaN = smoothed time_series k (S n).
Proof.
  rewrite seq_S, map_app. simpl map. apply last_last.
Qed.

Lemma next_value_smoothed (n : nat) :
  next_value time_series k (map (smoothed time_series k) (seq 1 n)) (S n)
  = smoothed time_series k (S n).
Proof.
  unfold next_value. destruct n as [| m]; [reflexivity |].
  rewrite last_smoothed. reflexivity.
Qed.

(* the states the scan goes through *)
Lemma state_after_ok (n : nat) :
  (0 <= stride)%Z ->
  labels_cover to_datetime time_series time_series_labels ->
  n < length time_series \/ n = 0 ->
  exists st,
    state_after to_datetime time_series time_series_labels stride k n = Ok st /\
    mdl st = map (smoothed time_series k) (seq 1 n) /\
    (regime_change_date st = None \/
     exists m v, 20 < m /\ m <= n /\ names_split time_series_labels m v /\
                 regime_change_date st = Some v).
Proof.
  intros Hs Hl. induction n as [| n IH]; intros Hn.
  - exists init_state. repeat split. now left.
  - destruct IH as (st & Hst & Hmdl & Hcp); [lia |].
    assert (Hn' : S n < length time_series) by lia.
    assert (Hne : S n = 1 \/ mdl st <> []).
    { destruct n; [now left | right]. rewrite Hmdl. discriminate. }
    destruct (body_ok st (S n) Hs Hl Hn' Hne) as (c & st' & _ & Hb & Hm & Hd).
    exists st'. rewrite state_after_S, Hst. cbn [bind].
    split; [exact Hb |]. split.
    + rewrite Hm, Hmdl, next_value_smoothed, seq_S, map_app. reflexivity.
    + destruct ((20 <? S n) && is_None (regime_change_date st) && c) eqn:E.
      * destruct Hd as (v & Hv & Hd). right. exists (S n), v.
        apply andb_prop in E as [E _]. apply andb_prop in E as [E _].
        apply Nat.ltb_lt in E. repeat split; try assumption; lia.
      * rewrite Hd. destruct Hcp as [Hcp | (m & v & ? & ? & ? & ?)]; [now left |].
        right. exists m, v. repeat split; try assumption; lia.
Qed.

(* every turn that returns has appended one value *)
Lemma body_mdl (st st' : state Label) (n : nat) :
  body st n = Ok st' -> exists x, mdl st' = mdl st ++ [x].
Proof.
  rewrite loop_body_parts.
  destruct (appended time_series k st n) as [x |]; cbn [bind]; [| discriminate].
  destruct (window_check _ _) as [c |]; cbn [bind]; [| discriminate].
  destruct ((20 <? n) && is_None (regime_change_date st) && c).
  - unfold assign. destruct time_series_labels as [ls |].
    + destruct (py_getitem ls n) as [l |]; cbn [bind]; [| discriminate].
      destruct (to_datetime l) as [d |]; cbn [bind]; [| discriminate].
      intros [= <-]. exists x. reflexivity.
    + intros [= <-]. exists x. reflexivity.
  - intros [= <-]. exists x. reflexivity.
Qed.

Lemma run_loop_length (ns : list nat) :
  forall st st', loop ns st = Ok st' ->
                 length (mdl st') = length (mdl st) + length ns.
Proof.
  induction ns as [| n ns IH]; intros st st' H; simpl in H.
  - injection H as <-. simpl. lia.
  - destruct (body st n) as [st1 |] eqn:E; cbn [bind] in H; [| discriminate].
    apply body_mdl in E as [x E]. apply IH in H.
    rewrite H, E, length_app. simpl. lia.
Qed.

(** ** The call *)

Lemma detect_run :
  detect_regime_change to_datetime time_series time_series_labels stride k =
  (st <- state_after to_datetime time_series time_series_labels stride k
           (length time_series - 1) ;;
   match time_series_labels with
   | None =>
       series <- pd_Series (mdl st)
                   (map PyInt (np_arange 1 (length time_series))) ;;
       Ok (series, regime_change_date st)
   | Some labels =>
       series <- pd_Series (mdl st) (map PyLabel (py_slice labels 1 (-1))) ;;
       Ok (series, regime_change_date st)
   end).
Proof.
  unfold detect_regime_change, state_after.
  replace (py_range 1 (S (length time_series - 1)))
    with (py_range 1 (length time_series)); [reflexivity |].
  unfold py_range. f_equal. lia.
Qed.

Lemma Forall2_seq {A : Type} (P : nat -> A -> Prop) (l : list A) :
  forall a, (forall i x, nth_error l i = Some x -> P (a + i) x) ->
            Forall2 P (seq a (length l)) l.
Proof.
  induction l as [| y l IH]; intros a H; simpl.
  - constructor.
  - constructor.
    + specialize (H 0 y eq_refl). now rewrite Nat.add_0_r in H.
    + apply IH. intros i x Hx. specialize (H (S i) x Hx).
      now rewrite Nat.add_succ_r in H.
Qed.

Lemma fst_combine {A B : Type} (l : list A) :
  forall l' : list B, length l = length l' -> map fst (combine l l') = l.
Proof.
  induction l as [| x l IH]; intros [| y l'] H; simpl in *; try congruence.
  f_equal. apply IH. lia.
Qed.

Lemma snd_combine {A B : Type} (l : list A) :
  forall l' : list B, length l = length l' -> map snd (combine l l') = l'.
Proof.
  induction l as [| x l IH]; intros [| y l'] H; simpl in *; try congruence.
  f_equal. apply IH. lia.
Qed.

(* the index of the returned series names the splits 1, 2, ... in order *)
Lemma index_names_splits_None :
  Forall2 (names_split (Label := Label) None)
    (seq 1 (length time_series - 1))
    (map PyInt (np_arange 1 (length time_series))).
Proof.
  unfold np_arange, py_range. rewrite map_map.
  set (m := length time_series - 1).
  replace (seq 1 m) with (seq 1 (length (map (fun x => PyInt (Label := Label) (Z.of_nat x)) (seq 1 m))))
    at 1 by now rewrite length_map, length_seq.
  apply Forall2_seq. intros i x Hx.
  rewrite nth_error_map in Hx.
  destruct (nth_error (seq 1 m) i) as [j |] eqn:E; [| discriminate].
  injection Hx as <-.
  assert (Hi : i < length (seq 1 m)) by (apply nth_error_Some; congruence).
  rewrite length_seq in Hi.
  rewrite (nth_error_nth' _ 0) in E by now rewrite length_seq.
  rewrite seq_nth in E by exact Hi. injection E as <-. reflexivity.
Qed.

Lemma index_names_splits_Some (ls : list Label) :
  Forall2 (names_split (Some ls))
    (seq 1 (length ls - 2))
    (map PyLabel (py_slice ls 1 (-1))).
Proof.
  rewrite <- (py_slice_1_m1_length ls).
  rewrite <- (length_map (PyLabel (Label := Label))).
  apply Forall2_seq. intros i x Hx.
  rewrite nth_error_map in Hx.
  destruct (nth_error (py_slice ls 1 (-1)) i) as [l |] eqn:E; [| discriminate].
  injection Hx as <-. exists l. split; [| reflexivity].
  unfold py_slice in E. rewrite nth_error_firstn in E.
  destruct (i <? _); [| discriminate].
  rewrite nth_error_skipn in E. rewrite slice_bound_1 in E.
  assert (0 < length ls).
  { destruct ls; [| simpl; lia]. destruct i; discriminate. }
  replace (Nat.min 1 (length ls)) with 1 in E by lia. exact E.
Qed.

Lemma labels_fit_cover :
  labels_fit to_datetime time_series time_series_labels ->
  labels_cover to_datetime time_series time_series_labels.
Proof.
  unfold labels_fit, labels_cover. destruct time_series_labels; [| trivial].
  intros [H ?]. split; [lia | assumption].
Qed.

(* the call returns when the labels, if any, fit the series *)
Lemma detect_ok :
  (0 <= stride)%Z ->
  labels_fit to_datetime time_series time_series_labels ->
  exists st keys,
    state_after to_datetime time_series time_series_labels stride k
      (length time_series - 1) = Ok st /\
    mdl st = map (smoothed time_series k) (seq 1 (length time_series - 1)) /\
    (regime_change_date st = None \/
     exists m v, 20 < m /\ m <= length time_series - 1 /\
                 names_split time_series_labels m v /\
                 regime_change_date st = Some v) /\
    Forall2 (names_split time_series_labels)
            (seq 1 (length time_series - 1)) keys /\
    detect_regime_change to_datetime time_series time_series_labels stride k
    = Ok (combine keys (mdl st), regime_change_date st).
Proof.
  intros Hs Hfit.
  destruct (state_after_ok (length time_series - 1) Hs (labels_fit_cover Hfit))
    as (st & Hst & Hmdl & Hcp); [lia |].
  assert (Hlen : length (mdl st) = length time_series - 1).
  { now rewrite Hmdl, length_map, length_seq. }
  rewrite detect_run, Hst. cbn [bind]. unfold pd_Series.
  exists st. unfold labels_fit in Hfit.
  destruct time_series_labels as [ls |].
  - destruct Hfit as [Hfit _].
    exists (map PyLabel (py_slice ls 1 (-1))).
    split; [reflexivity |]. split; [exact Hmdl |]. split; [exact Hcp |]. split.
    + replace (length time_series - 1) with (length ls - 2) by lia.
      apply index_names_splits_Some.
    + rewrite length_map, py_slice_1_m1_length, Hlen.
      replace (length ls - 2) with (length time_series - 1) by lia.
      rewrite Nat.eqb_refl. reflexivity.
  - exists (map PyInt (np_arange 1 (length time_series))).
    split; [reflexivity |]. split; [exact Hmdl |]. split; [exact Hcp |]. split.
    + apply index_names_splits_None.
    + unfold np_arange. rewrite !length_map, py_range_length, Hlen.
      rewrite Nat.eqb_refl. reflexivity.
Qed.

(* the call raises when the labels do not fit *)
Lemma detect_mismatch (ls : list Label) :
  time_series_labels = Some ls ->
  2 <= length time_series ->
  length ls <> length time_series + 1 ->
  raises (detect_regime_change to_datetime time_series time_series_labels stride k).
Proof.
  intros Hls Hk Hne. rewrite detect_run.
  destruct (state_after _ _ _ _ _ _) as [st | e] eqn:E; cbn [bind].
  - unfold state_after in E. apply run_loop_length in E.
    rewrite py_range_1_S, length_seq in E. simpl in E.
    rewrite Hls. unfold pd_Series.
    rewrite length_map, py_slice_1_m1_length, E.
    destruct (Nat.eqb_spec (length time_series - 1) (length ls - 2)) as [H | H].
    + lia.
    + exists ValueError. reflexivity.
  - exists e. reflexivity.
Qed.

End Turn.

(** ** The returned series and change point *)

(** C2 (as amended): for every observation sequence of length k >= 2 and
    every positive stride, detect_regime_change returns a series of
    exactly k-1 entries whose index names the splits 1, ..., k-1 in
    increasing order, both without labels and with labels that fit the
    series: k+1 dates, of which the index takes labels[1], ...,
    labels[k-1]. *)
Theorem series_has_an_entry_per_split :
  forall (Label : Type) (to_datetime : Label -> result Label)
         (time_series : list Z) (time_series_labels : option (list Label))
         (stride : Z) (k : float64),
    2 <= length time_series ->
    (0 < stride)%Z ->
    labels_fit to_datetime time_series time_series_labels ->
    exists series change_point,
      detect_regime_change to_datetime time_series time_series_labels stride k
      = Ok (series, change_point) /\
      length series = length time_series - 1 /\
      Forall2 (names_split time_series_labels)
              (seq 1 (length time_series - 1)) (map fst series).
Proof.
  intros Label to_datetime ts labels stride k _ Hs Hfit.
  destruct (detect_ok _ to_datetime ts labels stride k) as
    (st & keys & _ & Hmdl & _ & Hkeys & Hret); [lia | exact Hfit |].
  assert (Hlen : length keys = length (mdl st)).
  { apply Forall2_length in Hkeys.
    now rewrite Hmdl, length_map, <- Hkeys. }
  exists (combine keys (mdl st)), (regime_change_date st).
  split; [exact Hret |]. split.
  - rewrite length_combine, Hlen, Nat.min_id, Hmdl, length_map, length_seq.
    reflexivity.
  - rewrite fst_combine by exact Hlen. exact Hkeys.
Qed.

Lemma series_has_an_entry_per_split_witness :
  2 <= length [0; 1; 1]%Z /\
  (0 < 6)%Z /\
  labels_fit (fun l : nat => Ok l) [0; 1; 1]%Z (Some [10; 11; 12; 13]) /\
  exists series change_point,
    detect_regime_change (fun l : nat => Ok l) [0; 1; 1]%Z
      (Some [10; 11; 12; 13]) 6 (Fin 0.05)
    = Ok (series, change_point) /\
    length series = length [0; 1; 1]%Z - 1 /\
    Forall2 (names_split (Some [10; 11; 12; 13]))
            (seq 1 (length [0; 1; 1]%Z - 1)) (map fst series).
Proof.
  assert (H1 : 2 <= length [0; 1; 1]%Z) by (simpl; lia).
  assert (H2 : (0 < 6)%Z) by lia.
  assert (H3 : labels_fit (fun l : nat => Ok l) [0; 1; 1]%Z
                 (Some [10; 11; 12; 13])).
  { split; [reflexivity | intros l _; reflexivity]. }
  split; [exact H1 |]. split; [exact H2 |]. split; [exact H3 |].
  exact (series_has_an_entry_per_split nat (fun l : nat => Ok l) [0; 1; 1]%Z
           (Some [10; 11; 12; 13]) 6 (Fin 0.05) H1 H2 H3).
Defined.

(** C2, as stated, fails: with three observations and three labels, one
    per observation, the call raises and returns no series. *)
Lemma labels_one_per_observation_raise :
  raises (detect_regime_change (fun l : nat => Ok l) [0; 1; 1]%Z
            (Some [10; 11; 12]) 6 (Fin 0.05)).
Proof.
  apply (detect_mismatch _ (fun l : nat => Ok l) [0; 1; 1]%Z
           (Some [10; 11; 12]) 6 (Fin 0.05) [10; 11; 12]).
  - reflexivity.
  - simpl; lia.
  - simpl; lia.
Qed.

(** C3 (as amended): for every call with labels that fit the series (k+1
    dates for k observations) and a positive stride, the call returns,
    every key of the returned series is one of the supplied labels and a
    change point that is not None is one of the supplied labels; neither
    is ever an integer index. *)
Theorem labels_pass_through :
  forall (Label : Type) (to_datetime : Label -> result Label)
         (time_series : list Z) (labels : list Label)
         (stride : Z) (k : float64),
    (0 < stride)%Z ->
    length labels = length time_series + 1 ->
    timestamps to_datetime labels ->
    exists series change_point,
      detect_regime_change to_datetime time_series (Some labels) stride k
      = Ok (series, change_point) /\
      (forall key, In key (map fst series) ->
                   exists l, In l labels /\ key = PyLabel l) /\
      (forall v, change_point = Some v ->
                 exists l, In l labels /\ v = PyLabel l).
Proof.
  intros Label to_datetime ts ls stride k Hs Hlen Hts.
  destruct (detect_ok _ to_datetime ts (Some ls) stride k) as
    (st & keys & _ & Hmdl & Hcp & Hkeys & Hret);
    [lia | split; assumption |].
  assert (Hkl : length keys = length (mdl st)).
  { apply Forall2_length in Hkeys.
    now rewrite Hmdl, length_map, <- Hkeys. }
  exists (combine keys (mdl st)), (regime_change_date st).
  split; [exact Hret |]. split.
  - rewrite fst_combine by exact Hkl. intros key Hkey.
    clear Hret Hkl Hmdl. induction Hkeys as [| n key' ns keys' Hn _ IH].
    + contradiction.
    + destruct Hkey as [<- | Hkey]; [| now apply IH].
      destruct Hn as (l & Hl & ->). exists l.
      split; [eapply nth_error_In; eassumption | reflexivity].
  - intros v Hv. destruct Hcp as [Hcp | (m & v' & _ & _ & Hn & Hcp)];
      [congruence |].
    rewrite Hcp in Hv. injection Hv as <-.
    destruct Hn as (l & Hl & ->). exists l.
    split; [eapply nth_error_In; eassumption | reflexivity].
Qed.

Lemma labels_pass_through_witness :
  (0 < 6)%Z /\
  length [10; 11; 12; 13; 14] = length [1; 0; 1; 1]%Z + 1 /\
  timestamps (fun l : nat => Ok l) [10; 11; 12; 13; 14] /\
  exists series change_point,
    detect_regime_change (fun l : nat => Ok l) [1; 0; 1; 1]%Z
      (Some [10; 11; 12; 13; 14]) 6 (Fin 0.05)
    = Ok (series, change_point) /\
    (forall key, In key (map fst series) ->
                 exists l, In l [10; 11; 12; 13; 14] /\ key = PyLabel l) /\
    (forall v, change_point = Some v ->
               exists l, In l [10; 11; 12; 13; 14] /\ v = PyLabel l).
Proof.
  assert (H1 : (0 < 6)%Z) by lia.
  assert (H2 : length [10; 11; 12; 13; 14] = length [1; 0; 1; 1]%Z + 1)
    by reflexivity.
  assert (H3 : timestamps (fun l : nat => Ok l) [10; 11; 12; 13; 14])
    by (intros l _; reflexivity).
  split; [exact H1 |]. split; [exact H2 |]. split; [exact H3 |].
  exact (labels_pass_through nat (fun l : nat => Ok l) [1; 0; 1; 1]%Z
           [10; 11; 12; 13; 14] 6 (Fin 0.05) H1 H2 H3).
Defined.

(** C3, as stated, fails: with four observations and four labels the
    call raises, so that no series and no change point are returned. *)
Lemma four_labels_for_four_observations_raise :
  raises (detect_regime_change (fun l : nat => Ok l) [1; 0; 1; 1]%Z
            (Some [10; 11; 12; 13]) 6 (Fin 0.05)).
Proof.
  apply (detect_mismatch _ (fun l : nat => Ok l) [1; 0; 1; 1]%Z
           (Some [10; 11; 12; 13]) 6 (Fin 0.05) [10; 11; 12; 13]).
  - reflexivity.
  - simpl; lia.
  - simpl; lia.
Qed.

(** C5 (as amended): detect_regime_change rejects no observation
    sequence for its length: without labels it returns for every
    sequence, and for k < 2 what it returns is an empty series and no
    change point.  With labels it raises, for k >= 2, whenever the number
    of labels differs from k+1, and it returns when k+1 dates are
    supplied. *)
Theorem no_check_of_the_lengths :
  forall (Label : Type) (to_datetime : Label -> result Label)
         (time_series : list Z) (stride : Z) (k : float64),
    (0 < stride)%Z ->
    (exists series change_point,
        detect_regime_change to_datetime time_series None stride k
        = Ok (series, change_point) /\
        (length time_series < 2 -> series = [] /\ change_point = None)) /\
    (forall labels,
        2 <= length time_series ->
        length labels <> length time_series + 1 ->
        raises (detect_regime_change to_datetime time_series (Some labels)
                  stride k)) /\
    (forall labels,
        length labels = length time_series + 1 ->
        timestamps to_datetime labels ->
        exists r, detect_regime_change to_datetime time_series (Some labels)
                    stride k = Ok r).
Proof.
  intros Label to_datetime ts stride k Hs. split; [| split].
  - destruct (detect_ok _ to_datetime ts None stride k) as
      (st & keys & _ & Hmdl & Hcp & Hkeys & Hret); [lia | exact I |].
    exists (combine keys (mdl st)), (regime_change_date st).
    split; [exact Hret |]. intros Hk.
    replace (length ts - 1) with 0 in * by lia.
    simpl in Hmdl, Hkeys. inversion Hkeys; subst. rewrite Hmdl.
    split; [reflexivity |].
    destruct Hcp as [Hcp | (m & v & ? & ? & _)]; [exact Hcp | lia].
  - intros ls Hk Hne.
    now apply (detect_mismatch _ to_datetime ts (Some ls) stride k ls).
  - intros ls Hlen Hts.
    destruct (detect_ok _ to_datetime ts (Some ls) stride k) as
      (st & keys & _ & _ & _ & _ & Hret); [lia | split; assumption |].
    eexists; exact Hret.
Qed.

Lemma no_check_of_the_lengths_witness :
  (0 < 6)%Z /\
  (exists series change_point,
      detect_regime_change (fun l : nat => Ok l) [1]%Z None 6 (Fin 0.05)
      = Ok (series, change_point) /\
      (length [1]%Z < 2 -> series = [] /\ change_point = None)) /\
  (forall labels,
      2 <= length [1]%Z ->
      length labels <> length [1]%Z + 1 ->
      raises (detect_regime_change (fun l : nat => Ok l) [1]%Z (Some labels)
                6 (Fin 0.05))) /\
  (forall labels,
      length labels = length [1]%Z + 1 ->
      timestamps (fun l : nat => Ok l) labels ->
      exists r, detect_regime_change (fun l : nat => Ok l) [1]%Z (Some labels)
                  6 (Fin 0.05) = Ok r).
Proof.
  assert (H1 : (0 < 6)%Z) by lia.
  split; [exact H1 |].
  exact (no_check_of_the_lengths nat (fun l : nat => Ok l) [1]%Z 6
           (Fin 0.05) H1).
Defined.

(** C5, as stated, fails: a single observation (k = 1 < 2) raises
    nothing; the call returns an empty series and no change point. *)
Lemma one_observation_is_accepted :
  detect_regime_change (fun l : nat => Ok l) [1]%Z None 6 (Fin 0.05)
  = Ok ([], None).
Proof. reflexivity. Qed.

(** C7: for every observation sequence of length k <= 20, whatever it
    holds, every positive stride and every smoothing factor,
    detect_regime_change returns None as the change point (without labels
    and with labels that fit); and the call on [0, 1] with stride 6 and
    k = 0.05 returns a series of one entry, at split 1, and None. *)
Theorem short_series_detect_nothing :
  forall (Label : Type) (to_datetime : Label -> result Label)
         (time_series : list Z) (time_series_labels : option (list Label))
         (stride : Z) (k : float64),
    length time_series <= 20 ->
    (0 < stride)%Z ->
    labels_fit to_datetime time_series time_series_labels ->
    (exists series,
        detect_regime_change to_datetime time_series time_series_labels
          stride k = Ok (series, None)) /\
    detect_regime_change to_datetime [0; 1]%Z None 6 (Fin 0.05)
    = Ok ([(PyInt 1, raw [0; 1]%Z 1)], None).
Proof.
  intros Label to_datetime ts labels stride k Hk Hs Hfit. split.
  - destruct (detect_ok _ to_datetime ts labels stride k) as
      (st & keys & _ & _ & Hcp & _ & Hret); [lia | exact Hfit |].
    exists (combine keys (mdl st)). rewrite Hret.
    destruct Hcp as [-> | (m & v & ? & ? & _)]; [reflexivity | lia].
  - reflexivity.
Qed.

Lemma short_series_detect_nothing_witness :
  length [1; 1; 0; 1; 0]%Z <= 20 /\
  (0 < 6)%Z /\
  labels_fit (fun l : nat => Ok l) [1; 1; 0; 1; 0]%Z None /\
  (exists series,
      detect_regime_change (fun l : nat => Ok l) [1; 1; 0; 1; 0]%Z None
        6 (Fin 0.05) = Ok (series, None)) /\
  detect_regime_change (fun l : nat => Ok l) [0; 1]%Z None 6 (Fin 0.05)
  = Ok ([(PyInt 1, raw [0; 1]%Z 1)], None).
Proof.
  assert (H1 : length [1; 1; 0; 1; 0]%Z <= 20) by (simpl; lia).
  assert (H2 : (0 < 6)%Z) by lia.
  assert (H3 : labels_fit (fun l : nat => Ok l) [1; 1; 0; 1; 0]%Z None)
    by exact I.
  split; [exact H1 |]. split; [exact H2 |]. split; [exact H3 |].
  exact (short_series_detect_nothing nat (fun l : nat => Ok l)
           [1; 1; 0; 1; 0]%Z None 6 (Fin 0.05) H1 H2 H3).
Defined.

(** C10: for every call without labels (and with a positive stride) on a
    sequence of length k, the call returns, and a returned change point
    that is not None is an integer split index n with 21 <= n <= k-1; so
    that detection implies k >= 22. *)
Theorem change_point_is_a_late_split :
  forall (Label : Type) (to_datetime : Label -> result Label)
         (time_series : list Z) (stride : Z) (k : float64),
    (0 < stride)%Z ->
    exists series change_point,
      detect_regime_change to_datetime time_series None stride k
      = Ok (series, change_point) /\
      forall v, change_point = Some v ->
                22 <= length time_series /\
                exists n : Z, v = PyInt n /\
                              (21 <= n <= Z.of_nat (length time_series) - 1)%Z.
Proof.
  intros Label to_datetime ts stride k Hs.
  destruct (detect_ok _ to_datetime ts None stride k) as
    (st & keys & _ & _ & Hcp & _ & Hret); [lia | exact I |].
  exists (combine keys (mdl st)), (regime_change_date st).
  split; [exact Hret |]. intros v Hv.
  destruct Hcp as [Hcp | (m & v' & Hlo & Hhi & Hn & Hcp)]; [congruence |].
  rewrite Hcp in Hv. injection Hv as <-. simpl in Hn. subst v'.
  split; [lia |]. exists (Z.of_nat m). split; [reflexivity | lia].
Qed.

Lemma change_point_is_a_late_split_witness :
  (0 < 6)%Z /\
  exists series change_point,
    detect_regime_change (fun l : nat => Ok l) (repeat 1%Z 30) None 6 (Fin 0.05)
    = Ok (series, change_point) /\
    forall v, change_point = Some v ->
              22 <= length (repeat 1%Z 30) /\
              exists n : Z, v = PyInt n /\
                            (21 <= n <= Z.of_nat (length (repeat 1%Z 30)) - 1)%Z.
Proof.
  assert (H1 : (0 < 6)%Z) by lia.
  split; [exact H1 |].
  exact (change_point_is_a_late_split nat (fun l : nat => Ok l)
           (repeat 1%Z 30) 6 (Fin 0.05) H1).
Defined.

(** C8: within a scan, once regime_change_date holds a value that is not
    None, the turns for all the later split indices run and leave that
    value as it is: the detection check no longer assigns, and one change
    point at most is reported. *)
Theorem change_point_is_locked :
  forall (Label : Type) (to_datetime : Label -> result Label)
         (time_series : list Z) (time_series_labels : option (list Label))
         (stride : Z) (k : float64)
         (later_splits : list nat) (st : state Label) (v : pyval Label),
    (0 < stride)%Z ->
    mdl st <> [] ->
    regime_change_date st = Some v ->
    exists st',
      run_loop to_datetime time_series time_series_labels stride k
        later_splits st = Ok st' /\
      regime_change_date st' = Some v.
Proof.
  intros Label to_datetime ts labels stride k ns.
  induction ns as [| n ns IH]; intros st v Hs Hmdl Hv.
  - exists st. split; [reflexivity | exact Hv].
  - destruct (body_locked _ to_datetime ts labels stride k st n v) as [x Hx];
      [lia | now right | exact Hv |].
    destruct (IH (mkState (mdl st ++ [x]) (Some v)) v Hs) as (st' & Hrun & Hst').
    + simpl. destruct (mdl st); discriminate.
    + reflexivity.
    + exists st'. split; [| exact Hst'].
      simpl. rewrite Hx. cbn [bind]. exact Hrun.
Qed.

Lemma change_point_is_locked_witness :
  (0 < 6)%Z /\
  mdl (mkState [Fin 3; Fin 2] (Some (PyInt (Label := nat) 21))) <> [] /\
  regime_change_date (mkState [Fin 3; Fin 2] (Some (PyInt (Label := nat) 21)))
  = Some (PyInt 21) /\
  exists st',
    run_loop (fun l : nat => Ok l) (repeat 0%Z 30) None 6 (Fin 0.05)
      [22; 23; 24] (mkState [Fin 3; Fin 2] (Some (PyInt 21))) = Ok st' /\
    regime_change_date st' = Some (PyInt 21).
Proof.
  assert (H1 : (0 < 6)%Z) by lia.
  assert (H2 : mdl (mkState [Fin 3; Fin 2] (Some (PyInt (Label := nat) 21))) <> [])
    by discriminate.
  assert (H3 : regime_change_date
                 (mkState [Fin 3; Fin 2] (Some (PyInt (Label := nat) 21)))
               = Some (PyInt 21)) by reflexivity.
  split; [exact H1 |]. split; [exact H2 |]. split; [exact H3 |].
  exact (change_point_is_locked nat (fun l : nat => Ok l) (repeat 0%Z 30) None
           6 (Fin 0.05) [22; 23; 24]
           (mkState [Fin 3; Fin 2] (Some (PyInt 21))) (PyInt 21) H1 H2 H3).
Defined.

Lemma nth_map_seq {A : Type} (f : nat -> A) (d : A) (m n : nat) :
  1 <= n -> n <= m -> nth (n - 1) (map f (seq 1 m)) d = f n.
Proof.
  intros H1 Hm.
  rewrite (nth_indep _ d (f 0)) by (rewrite length_map, length_seq; lia).
  rewrite map_nth, seq_nth by lia. f_equal. lia.
Qed.

(** C6: the value the returned series holds for the split n is, for
    n = 1, the raw description length [raw 1], and for every n > 1 the
    value for n-1 times (1 - k) plus [raw n] times k; where [raw n] is
    -loglik(obs[0:n]) - loglik(obs[n:k]) + 0.5 * (log n + log (k - n)),
    loglik being what log_likelihood returns. *)
Theorem series_is_the_smoothed_description_length :
  forall (Label : Type) (to_datetime : Label -> result Label)
         (time_series : list Z) (time_series_labels : option (list Label))
         (stride : Z) (k : float64),
    (0 < stride)%Z ->
    labels_fit to_datetime time_series time_series_labels ->
    exists series change_point,
      detect_regime_change to_datetime time_series time_series_labels stride k
      = Ok (series, change_point) /\
      length series = length time_series - 1 /\
      let value_at n := nth (n - 1) (map snd series) NaN in
      (2 <= length time_series -> value_at 1 = raw time_series 1) /\
      (forall n, 1 < n -> n < length time_series ->
                 value_at n =
                 F64.add (F64.mul (value_at (n - 1)) (F64.sub (Fin 1) k))
                         (F64.mul (raw time_series n) k)) /\
      (forall n, n < length time_series ->
                 log_likelihood (firstn n time_series)
                 = Ok (loglik (firstn n time_series)) /\
                 log_likelihood (skipn n time_series)
                 = Ok (loglik (skipn n time_series)) /\
                 raw time_series n =
                 F64.add
                   (F64.sub (F64.neg (loglik (firstn n time_series)))
                            (loglik (skipn n time_series)))
                   (F64.mul (Fin 0.5)
                      (F64.add (F64.log (F64.of_Z (Z.of_nat n)))
                         (F64.log (F64.of_Z (Z.of_nat (length time_series)
                                             - Z.of_nat n)))))).
Proof.
  intros Label to_datetime ts labels stride k Hs Hfit.
  destruct (detect_ok _ to_datetime ts labels stride k) as
    (st & keys & _ & Hmdl & _ & Hkeys & Hret); [lia | exact Hfit |].
  assert (Hlen : length keys = length (mdl st)).
  { apply Forall2_length in Hkeys.
    now rewrite Hmdl, length_map, <- Hkeys. }
  exists (combine keys (mdl st)), (regime_change_date st).
  split; [exact Hret |]. split.
  { rewrite length_combine, Hlen, Nat.min_id, Hmdl, length_map, length_seq.
    reflexivity. }
  cbv zeta. rewrite snd_combine by exact Hlen. rewrite Hmdl.
  split; [| split].
  - intros Hk. rewrite nth_map_seq by lia. reflexivity.
  - intros n H1 Hn. rewrite !nth_map_seq by lia.
    destruct n as [| [| m]]; [lia | lia |].
    replace (S (S m) - 1) with (S m) by lia. reflexivity.
  - intros n Hn. split; [reflexivity |]. split; [reflexivity |].
    unfold raw. rewrite Nat2Z.inj_sub by lia. reflexivity.
Qed.

Lemma series_is_the_smoothed_description_length_witness :
  (0 < 6)%Z /\
  labels_fit (fun l : nat => Ok l) [0; 1; 1; 0]%Z None /\
  exists series change_point,
    detect_regime_change (fun l : nat => Ok l) [0; 1; 1; 0]%Z None 6 (Fin 0.05)
    = Ok (series, change_point) /\
    length series = 3 /\
    nth 0 (map snd series) NaN = raw [0; 1; 1; 0]%Z 1 /\
    nth 1 (map snd series) NaN =
    F64.add (F64.mul (nth 0 (map snd series) NaN) (F64.sub (Fin 1) (Fin 0.05)))
            (F64.mul (raw [0; 1; 1; 0]%Z 2) (Fin 0.05)).
Proof.
  assert (H1 : (0 < 6)%Z) by lia.
  assert (H2 : labels_fit (fun l : nat => Ok l) [0; 1; 1; 0]%Z None) by exact I.
  split; [exact H1 |]. split; [exact H2 |].
  destruct (series_is_the_smoothed_description_length nat (fun l : nat => Ok l)
              [0; 1; 1; 0]%Z None 6 (Fin 0.05) H1 H2)
    as (series & cp & Hret & Hlen & Hseed & Hstep & _).
  exists series, cp. split; [exact Hret |]. split; [exact Hlen |]. split.
  - apply Hseed. simpl. lia.
  - apply (Hstep 2); simpl; lia.
Defined.

(** ** log_likelihood on binary sequences *)

Lemma R_ltb_true (x y : R) : (x < y)%R -> F64.R_ltb x y = true.
Proof. intros H. unfold F64.R_ltb. destruct (Rlt_dec x y); [reflexivity | contradiction]. Qed.

Lemma R_ltb_false (x y : R) : ~ (x < y)%R -> F64.R_ltb x y = false.
Proof. intros H. unfold F64.R_ltb. destruct (Rlt_dec x y); [contradiction | reflexivity]. Qed.

Lemma R_ltb_iff (x y : R) : F64.R_ltb x y = true <-> (x < y)%R.
Proof.
  unfold F64.R_ltb. destruct (Rlt_dec x y); split; intros; try assumption;
    try reflexivity; try discriminate; contradiction.
Qed.

Lemma log_of_positive (x : R) : (0 < x)%R -> F64.log (Fin x) = Fin (ln x).
Proof. intros H. simpl. now rewrite R_ltb_true. Qed.

Lemma fold_add_acc (l : list Z) :
  forall a : Z, fold_left Z.add l a = (a + py_sum l)%Z.
Proof.
  unfold py_sum. induction l as [| x l IH]; intros a; simpl.
  - lia.
  - rewrite (IH (a + x)%Z), (IH x). lia.
Qed.

Lemma py_sum_cons (x : Z) (l : list Z) : py_sum (x :: l) = (x + py_sum l)%Z.
Proof. unfold py_sum at 1. simpl. apply fold_add_acc. Qed.

(* the number of heads of a binary sequence lies between 0 and its length *)
Lemma py_sum_binary (l : list Z) :
  binary l = true -> (0 <= py_sum l <= Z.of_nat (length l))%Z.
Proof.
  induction l as [| x l IH]; intros Hb.
  - unfold py_sum. simpl. lia.
  - simpl in Hb. apply andb_prop in Hb as [Hx Hl].
    rewrite py_sum_cons. specialize (IH Hl).
    apply orb_prop in Hx. rewrite !Z.eqb_eq in Hx.
    rewrite length_cons. lia.
Qed.

Lemma sum_of_Z (l : list Z) :
  forall a : Z,
    fold_left F64.add (map F64.of_Z l) (Fin (IZR a))
    = Fin (IZR (fold_left Z.add l a)).
Proof.
  induction l as [| x l IH]; intros a; simpl.
  - reflexivity.
  - rewrite <- plus_IZR. apply IH.
Qed.

Lemma np_mean_of_Z (l : list Z) :
  l <> [] ->
  np_mean (map F64.of_Z l) = Fin (IZR (py_sum l) / INR (length l)).
Proof.
  intros Hl. unfold np_mean, F64.sum. rewrite (sum_of_Z l 0), length_map.
  destruct l; [congruence | reflexivity].
Qed.

Lemma binary_mean_in_unit_interval (l : list Z) :
  binary l = true -> l <> [] ->
  (0 <= IZR (py_sum l) / INR (length l) <= 1)%R.
Proof.
  intros Hb Hl. pose proof (py_sum_binary l Hb) as Hs.
  assert (Hn : (0 < length l)%nat) by (destruct l; [congruence | simpl; lia]).
  assert (0 < INR (length l))%R by (apply lt_0_INR; exact Hn).
  assert (0 <= IZR (py_sum l))%R by (apply IZR_le; lia).
  assert (IZR (py_sum l) <= INR (length l))%R
    by (rewrite INR_IZR_INZ; apply IZR_le; lia).
  split.
  - apply Rmult_le_pos; [assumption | left; now apply Rinv_0_lt_compat].
  - apply (Rmult_le_reg_r (INR (length l))); [assumption |].
    unfold Rdiv. rewrite Rmult_assoc, Rinv_l by lra. lra.
Qed.

(* on a binary sequence that is not empty both logarithms are taken of a
   positive number, and the likelihood is a real number *)
Lemma log_likelihood_binary (l : list Z) :
  binary l = true -> l <> [] ->
  exists p : R,
    np_mean (map F64.of_Z l) = Fin p /\
    (0 < p + 1e-20)%R /\ (0 < 1 - p + 1e-20)%R /\
    log_likelihood l =
    Ok (Fin (IZR (py_sum l) * ln (p + 1e-20) +
             IZR (Z.of_nat (length l) - py_sum l) * ln (1 - p + 1e-20))).
Proof.
  intros Hb Hl.
  pose proof (binary_mean_in_unit_interval l Hb Hl) as Hp.
  exists (IZR (py_sum l) / INR (length l))%R.
  split; [now apply np_mean_of_Z |].
  split; [lra |]. split; [lra |].
  unfold log_likelihood. rewrite (np_mean_of_Z l Hl).
  cbn [F64.add F64.sub F64.neg F64.of_Z].
  rewrite !log_of_positive by lra.
  cbn [F64.mul F64.add]. reflexivity.
Qed.

(** C4 (as amended): log_likelihood raises on no sequence.  On the empty
    sequence it returns NaN (the mean of nothing), and on every binary
    sequence that is not empty it returns a real number. *)
Theorem log_likelihood_returns :
  forall time_series : list Z,
    binary time_series = true ->
    (time_series = [] -> log_likelihood time_series = Ok NaN) /\
    (time_series <> [] -> exists x : R, log_likelihood time_series = Ok (Fin x)).
Proof.
  intros ts Hb. split.
  - intros ->. reflexivity.
  - intros Hne.
    destruct (log_likelihood_binary ts Hb Hne) as (p & _ & _ & _ & H).
    eexists. exact H.
Qed.

Lemma log_likelihood_returns_witness :
  binary [0; 1; 1]%Z = true /\
  ([0; 1; 1]%Z = [] -> log_likelihood [0; 1; 1]%Z = Ok NaN) /\
  ([0; 1; 1]%Z <> [] -> exists x : R, log_likelihood [0; 1; 1]%Z = Ok (Fin x)).
Proof.
  assert (H : binary [0; 1; 1]%Z = true) by reflexivity.
  split; [exact H |].
  exact (log_likelihood_returns [0; 1; 1]%Z H).
Defined.

(** C4, as stated, fails: on the empty sequence log_likelihood raises no
    error; it returns NaN. *)
Lemma log_likelihood_of_nothing_is_nan :
  log_likelihood [] = Ok NaN.
Proof. reflexivity. Qed.

Lemma binary_repeat (b : Z) (n : nat) :
  b = 0%Z \/ b = 1%Z -> binary (repeat b n) = true.
Proof.
  intros Hb. induction n as [| n IH]; [reflexivity |].
  simpl. rewrite IH. destruct Hb as [-> | ->]; reflexivity.
Qed.

(* what the additive constant is for: without it, a sequence of 0s only
   would give 0 * log 0 *)
Lemma zero_times_log_zero :
  F64.mul (F64.of_Z 0) (F64.log (Fin 0)) = NaN.
Proof.
  simpl. rewrite R_ltb_false by lra.
  unfold F64.R_eqb. destruct (Req_dec_T 0 0); [| congruence].
  unfold F64.scale_inf. rewrite !R_ltb_false by lra. reflexivity.
Qed.

(** C9: on every sequence of 0s only and on every sequence of 1s only,
    not empty, log_likelihood returns a finite number (it raises nothing
    and the value is neither infinite nor NaN): with 1e-20 added, both
    logarithms are taken of a positive number. *)
Theorem log_likelihood_finite_on_constant_series :
  forall (b : Z) (n : nat),
    b = 0%Z \/ b = 1%Z ->
    0 < n ->
    exists p x : R,
      np_mean (map F64.of_Z (repeat b n)) = Fin p /\
      (0 < p + 1e-20)%R /\ (0 < 1 - p + 1e-20)%R /\
      log_likelihood (repeat b n) = Ok (Fin x).
Proof.
  intros b n Hb Hn.
  destruct (log_likelihood_binary (repeat b n)) as (p & Hp & H1 & H2 & H).
  - now apply binary_repeat.
  - destruct n; [lia | discriminate].
  - exists p. eexists. repeat split; eassumption.
Qed.

Lemma log_likelihood_finite_on_constant_series_witness :
  (1%Z = 0%Z \/ 1%Z = 1%Z) /\
  0 < 5 /\
  exists p x : R,
    np_mean (map F64.of_Z (repeat 1%Z 5)) = Fin p /\
    (0 < p + 1e-20)%R /\ (0 < 1 - p + 1e-20)%R /\
    log_likelihood (repeat 1%Z 5) = Ok (Fin x).
Proof.
  assert (H1 : 1%Z = 0%Z \/ 1%Z = 1%Z) by (right; reflexivity).
  assert (H2 : 0 < 5) by lia.
  split; [exact H1 |]. split; [exact H2 |].
  exact (log_likelihood_finite_on_constant_series 1%Z 5 H1 H2).
Defined.

(** ** The detection window *)

Lemma nth_snoc_old {A : Type} (l : list A) (x d : A) (j : nat) :
  j < length l -> nth j (l ++ [x]) d = nth j l d.
Proof. intros H. now apply app_nth1. Qed.

Lemma nth_snoc_new {A : Type} (l : list A) (x d : A) :
  nth (length l) (l ++ [x]) d = x.
Proof. rewrite app_nth2 by lia. now rewrite Nat.sub_diag. Qed.

(* a new value below the minimum so far is the new minimum *)
Lemma min_idx_snoc_new (pre : list R) (bp : nat) (x : R) :
  min_idx pre bp -> (x < nth bp pre 0)%R -> min_idx (pre ++ [x]) (length pre).
Proof.
  intros (Hbp & Hmin & Hfirst) Hx. unfold min_idx.
  rewrite length_app, nth_snoc_new. simpl. split; [lia |]. split.
  - intros j Hj. destruct (Nat.eq_dec j (length pre)) as [-> | Hne].
    + rewrite nth_snoc_new. lra.
    + rewrite nth_snoc_old by lia. specialize (Hmin j). 
      assert (j < length pre) by lia. specialize (Hmin H). lra.
  - intros j Hj. rewrite nth_snoc_old by lia. specialize (Hmin j Hj). lra.
Qed.

(* any other new value leaves the minimum where it is *)
Lemma min_idx_snoc_keep (pre : list R) (bp : nat) (x : R) :
  min_idx pre bp -> ~ (x < nth bp pre 0)%R -> min_idx (pre ++ [x]) bp.
Proof.
  intros (Hbp & Hmin & Hfirst) Hx. unfold min_idx.
  rewrite length_app. simpl. rewrite nth_snoc_old by lia.
  split; [lia |]. split.
  - intros j Hj. destruct (Nat.eq_dec j (length pre)) as [-> | Hne].
    + rewrite nth_snoc_new. lra.
    + rewrite nth_snoc_old by lia. apply Hmin. lia.
  - intros j Hj. rewrite nth_snoc_old by lia. now apply Hfirst.
Qed.

Lemma min_idx_unique (w : list R) (i j : nat) :
  min_idx w i -> min_idx w j -> i = j.
Proof.
  intros (Hi & Hmi & Hfi) (Hj & Hmj & Hfj).
  destruct (Nat.lt_trichotomy i j) as [H | [H | H]]; [| exact H |].
  - specialize (Hfj i H). specialize (Hmi j Hj). lra.
  - specialize (Hfi j H). specialize (Hmj i Hi). lra.
Qed.

(* on real numbers the scan of min() ends on the index of the minimum *)
Lemma min_scan_finite (rest : list R) :
  forall (pre : list R) (bp : nat),
    min_idx pre bp ->
    exists j,
      min_scan (map Fin rest) (length pre) bp (Fin (nth bp pre 0%R))
      = (j, Fin (nth j (pre ++ rest) 0%R)) /\
      min_idx (pre ++ rest) j.
Proof.
  induction rest as [| x rest IH]; intros pre bp Hbp.
  - exists bp. rewrite app_nil_r. split; [reflexivity | exact Hbp].
  - simpl. destruct (Rlt_dec x (nth bp pre 0%R)) as [Hx | Hx].
    + rewrite (R_ltb_true _ _ Hx).
      destruct (IH (pre ++ [x]) (length pre)) as (j & Hj & Hmin).
      { eapply min_idx_snoc_new; eassumption. }
      rewrite nth_snoc_new, length_app, Nat.add_1_r in Hj.
      rewrite <- app_assoc in Hj, Hmin. exists j. split; assumption.
    + rewrite (R_ltb_false _ _ Hx).
      destruct (IH (pre ++ [x]) bp) as (j & Hj & Hmin).
      { now apply min_idx_snoc_keep. }
      rewrite nth_snoc_old, length_app, Nat.add_1_r in Hj by apply Hbp.
      rewrite <- app_assoc in Hj, Hmin. exists j. split; assumption.
Qed.

Lemma py_min_finite (w : list R) :
  w <> [] ->
  exists j, py_min (map Fin w) = Ok (j, Fin (nth j w 0%R)) /\ min_idx w j.
Proof.
  destruct w as [| x rest]; intros Hw; [congruence |].
  destruct (min_scan_finite rest [x] 0) as (j & Hj & Hmin).
  - unfold min_idx. simpl. split; [lia |]. split.
    + intros [| j] Hj; [lra | lia].
    + intros j Hj. lia.
  - exists j. split; [| exact Hmin]. simpl in *. now rewrite Hj.
Qed.

(* index() finds the minimum where min() took it *)
Lemma index_scan_finite (rest : list R) :
  forall (pre : list R) (j : nat) (v : R),
    length pre <= j ->
    j < length (pre ++ rest) ->
    (forall i, length pre <= i -> i < j -> nth i (pre ++ rest) 0%R <> v) ->
    index_scan (map Fin rest) (length pre) (j, Fin v) = Ok j.
Proof.
  induction rest as [| x rest IH]; intros pre j v Hlo Hhi Hne.
  - rewrite app_nil_r in Hhi. lia.
  - simpl. destruct (Nat.eqb_spec (length pre) j) as [-> | Hj]; [reflexivity |].
    simpl. assert (Hx : x <> v).
    { specialize (Hne (length pre)). rewrite app_nth2, Nat.sub_diag in Hne by lia.
      apply Hne; lia. }
    unfold F64.R_eqb. destruct (Req_dec_T x v) as [E | _]; [contradiction |].
    specialize (IH (pre ++ [x]) j v).
    rewrite length_app, Nat.add_1_r, <- app_assoc in IH.
    apply IH; [lia | exact Hhi |]. intros i Hi1 Hi2. apply Hne; lia.
Qed.

Lemma py_index_finite (w : list R) (j : nat) :
  min_idx w j -> py_index (map Fin w) (j, Fin (nth j w 0%R)) = Ok j.
Proof.
  intros (Hj & _ & Hfirst). unfold py_index.
  apply (index_scan_finite w [] j (nth j w 0%R)); simpl; [lia | exact Hj |].
  intros i _ Hi. specialize (Hfirst i Hi). lra.
Qed.

(** *** Means *)

Lemma sum_of_reals (l : list R) :
  forall a : R, fold_left F64.add (map Fin l) (Fin a) = Fin (a + Rsum l).
Proof.
  induction l as [| x l IH]; intros a; simpl.
  - f_equal. lra.
  - rewrite IH. f_equal. lra.
Qed.

Lemma np_mean_of_reals (l : list R) :
  l <> [] -> np_mean (map Fin l) = Fin (mean l).
Proof.
  intros Hl. unfold np_mean, F64.sum, mean.
  rewrite sum_of_reals, length_map, Rplus_0_l.
  destruct l; [congruence | reflexivity].
Qed.

Lemma Rsum_lower_bound (l : list R) (m : R) :
  (forall x, In x l -> m <= x)%R -> (INR (length l) * m <= Rsum l)%R.
Proof.
  induction l as [| y l IH]; intros H.
  - simpl. lra.
  - rewrite length_cons, S_INR. simpl Rsum.
    assert (m <= y)%R by (apply H; now left).
    assert (INR (length l) * m <= Rsum l)%R by (apply IH; intros x Hx; apply H; now right).
    lra.
Qed.

(* a mean is not below a lower bound of the values *)
Lemma mean_lower_bound (l : list R) (m : R) :
  l <> [] -> (forall x, In x l -> m <= x)%R -> (m <= mean l)%R.
Proof.
  intros Hl H. pose proof (Rsum_lower_bound l m H) as Hs.
  assert (Hn : (0 < INR (length l))%R).
  { apply lt_0_INR. destruct l; [congruence | simpl; lia]. }
  unfold mean. apply (Rmult_le_reg_r (INR (length l))); [exact Hn |].
  unfold Rdiv. rewrite Rmult_assoc, Rinv_l by lra. lra.
Qed.

Lemma mean_singleton (x : R) : mean [x] = x.
Proof. unfold mean, Rsum. simpl. unfold Rdiv. rewrite Rinv_1. lra. Qed.

Lemma skipn_to_last (w : list R) (j : nat) :
  j < length w -> j = length w - 1 -> skipn j w = [nth j w 0%R].
Proof.
  intros Hj Hlast.
  assert (Hlen : length (skipn j w) = 1) by (rewrite length_skipn; lia).
  pose proof (nth_skipn j w 0 0%R) as Hn. rewrite Nat.add_0_r in Hn.
  destruct (skipn j w) as [| y [| z t]]; simpl in Hlen; try lia.
  simpl in Hn. now rewrite Hn.
Qed.

(* on a window of real numbers the test of the code is the detection
   rule: a minimum in the last place fails the comparison of the means,
   as every value before it is above it *)
Lemma window_check_finite (stride : Z) (w : list R) :
  w <> [] ->
  (Z.of_nat (length w) <= 2 * stride)%Z ->
  exists c, window_check stride (map Fin w) = Ok c /\ (c = true <-> dip w).
Proof.
  intros Hw Hlen.
  destruct (py_min_finite w Hw) as (j & Hmin & Hj).
  unfold window_check. rewrite Hmin. cbn [bind].
  rewrite (py_index_finite w j Hj). cbn [bind].
  eexists. split; [reflexivity |].
  rewrite firstn_map, skipn_map.
  pose proof Hj as (Hjlt & Hjmin & Hjfirst).
  assert (Hskip : skipn j w <> []).
  { intros E. apply (f_equal (@length R)) in E.
    rewrite length_skipn in E. simpl in E. lia. }
  rewrite (np_mean_of_reals (skipn j w) Hskip).
  destruct (Nat.eq_dec j 0) as [-> | Hpos].
  - simpl. split; [discriminate |].
    intros (i & Hi & Hipos & _).
    pose proof (min_idx_unique w i 0 Hi Hj). lia.
  - assert (Hfirst : firstn j w <> []).
    { intros E. apply (f_equal (@length R)) in E.
      rewrite length_firstn in E. simpl in E. lia. }
    rewrite (np_mean_of_reals (firstn j w) Hfirst).
    replace (0 <? j) with true by (symmetry; apply Nat.ltb_lt; lia).
    replace (Z.of_nat j <? 2 * stride)%Z with true
      by (symmetry; apply Z.ltb_lt; lia).
    cbn [andb F64.ltb]. rewrite R_ltb_iff. split.
    + intros Hlt. exists j. split; [exact Hj |]. split; [lia |].
      split; [| exact Hlt].
      destruct (Nat.eq_dec j (length w - 1)) as [Hlast | Hnot]; [| lia].
      exfalso. rewrite (skipn_to_last w j Hjlt Hlast), mean_singleton in Hlt.
      assert (nth j w 0 <= mean (firstn j w))%R; [| lra].
      apply mean_lower_bound; [exact Hfirst |].
      intros x Hx. apply (In_nth _ _ 0%R) in Hx as (i & Hi & <-).
      rewrite length_firstn in Hi. rewrite nth_firstn.
      replace (i <? j) with true by (symmetry; apply Nat.ltb_lt; lia).
      left. apply Hjfirst. lia.
    + intros (i & Hi & _ & _ & Hlt).
      now rewrite <- (min_idx_unique w i j Hi Hj).
Qed.

(** *** The smoothed values of a binary series are real numbers *)

Lemma binary_firstn (n : nat) (l : list Z) :
  binary l = true -> binary (firstn n l) = true.
Proof.
  unfold binary. rewrite !forallb_forall. intros H x Hx.
  apply H. eapply In_firstn; eassumption.
Qed.

Lemma binary_skipn (n : nat) (l : list Z) :
  binary l = true -> binary (skipn n l) = true.
Proof.
  unfold binary. rewrite !forallb_forall. intros H x Hx.
  apply H. eapply In_skipn; eassumption.
Qed.

Lemma loglik_finite (l : list Z) :
  binary l = true -> l <> [] -> exists x : R, loglik l = Fin x.
Proof.
  intros Hb Hl. unfold loglik.
  destruct (log_likelihood_binary l Hb Hl) as (p & _ & _ & _ & ->).
  eexists; reflexivity.
Qed.

Lemma log_of_count (n : nat) :
  1 <= n -> F64.log (F64.of_Z (Z.of_nat n)) = Fin (ln (IZR (Z.of_nat n))).
Proof.
  intros Hn. apply log_of_positive. apply (IZR_lt 0). lia.
Qed.

Lemma raw_finite (time_series : list Z) (n : nat) :
  binary time_series = true ->
  1 <= n -> n < length time_series ->
  exists r : R, raw time_series n = Fin r.
Proof.
  intros Hb H1 Hn. unfold raw.
  destruct (loglik_finite (firstn n time_series)) as [a ->].
  { now apply binary_firstn. }
  { intros E. apply (f_equal (@length Z)) in E.
    rewrite length_firstn in E. simpl in E. lia. }
  destruct (loglik_finite (skipn n time_series)) as [b ->].
  { now apply binary_skipn. }
  { intros E. apply (f_equal (@length Z)) in E.
    rewrite length_skipn in E. simpl in E. lia. }
  rewrite !log_of_count by lia.
  eexists. reflexivity.
Qed.

Lemma smoothed_step (time_series : list Z) (k : float64) (m : nat) :
  smoothed time_series k (S (S m)) =
  F64.add (F64.mul (smoothed time_series k (S m)) (F64.sub (Fin 1) k))
          (F64.mul (raw time_series (S (S m))) k).
Proof. reflexivity. Qed.

Lemma smoothed_finite (time_series : list Z) (kappa : R) (n : nat) :
  binary time_series = true ->
  1 <= n -> n < length time_series ->
  exists r : R, smoothed time_series (Fin kappa) n = Fin r.
Proof.
  intros Hb. induction n as [| m IH]; intros H1 Hn; [lia |].
  destruct m as [| m'].
  - change (smoothed time_series (Fin kappa) 1) with (raw time_series 1).
    now apply raw_finite.
  - rewrite smoothed_step.
    destruct IH as [s ->]; [lia | lia |].
    destruct (raw_finite time_series (S (S m')) Hb) as [r ->]; [lia | exact Hn |].
    eexists. reflexivity.
Qed.

Lemma smoothed_series_finite (time_series : list Z) (kappa : R) (n : nat) :
  binary time_series = true ->
  n < length time_series ->
  exists W : list R,
    map (smoothed time_series (Fin kappa)) (seq 1 n) = map Fin W /\ length W = n.
Proof.
  intros Hb. induction n as [| n IH]; intros Hn.
  - exists []. split; reflexivity.
  - destruct IH as (W & HW & Hlen); [lia |].
    destruct (smoothed_finite time_series kappa (S n) Hb) as [r Hr]; [lia | exact Hn |].
    exists (W ++ [r]). rewrite seq_S, !map_app, HW.
    change (1 + n) with (S n). cbn [map]. rewrite Hr.
    split; [reflexivity |]. rewrite length_app. simpl. lia.
Qed.



Lemma trailing_window_map {A B : Type} (f : A -> B) (m : nat) (l : list A) :
  trailing_window m (map f l) = map f (trailing_window m l).
Proof. unfold trailing_window. now rewrite length_map, skipn_map. Qed.

Lemma trailing_window_length {A : Type} (m : nat) (l : list A) :
  length (trailing_window m l) = Nat.min m (length l).
Proof. unfold trailing_window. rewrite length_skipn. lia. Qed.

Lemma smoothed_with_factor_1 (time_series : list Z) (n : nat) :
  binary time_series = true ->
  1 <= n -> n < length time_series ->
  smoothed time_series (Fin 1) n = raw time_series n.
Proof.
  intros Hb H1 Hn. destruct n as [| [| m]]; [lia | reflexivity |].
  rewrite smoothed_step.
  destruct (smoothed_finite time_series 1 (S m) Hb) as [s ->]; [lia | lia |].
  destruct (raw_finite time_series (S (S m)) Hb) as [r ->]; [lia | exact Hn |].
  simpl. f_equal. lra.
Qed.

Lemma map_Fin_inj (w1 : list R) :
  forall w2 : list R, map Fin w1 = map Fin w2 -> w1 = w2.
Proof.
  induction w1 as [| x w1 IH]; intros [| y w2] H; try discriminate.
  - reflexivity.
  - simpl in H. injection H as -> H. f_equal. now apply IH.
Qed.


(** ** A change that the scan detects *)

















(* the rule can hold: a window whose minimum is in its third place *)
Example dip_example : dip [5; 4; 1; 6; 7; 8]%R.
Proof.
  exists 2. split; [| split; [lia | split; [simpl; lia |]]].
  - split; [simpl; lia |]. split.
    + intros j Hj. simpl in Hj.
      do 6 (destruct j as [| j]; [simpl; lra |]). lia.
    + intros j Hj. do 2 (destruct j as [| j]; [simpl; lra |]). lia.
  - unfold mean, Rsum. simpl. lra.
Qed.

(* and the code's test accepts it *)
Example window_check_example :
  window_check 3 (map Fin [5; 4; 1; 6; 7; 8]%R) = Ok true.
Proof.
  destruct (window_check_finite 3 [5; 4; 1; 6; 7; 8]%R) as (c & Hc & Hdip).
  - discriminate.
  - simpl. lia.
  - rewrite Hc. f_equal. apply Hdip. exact dip_example.
Qed.

(* a minimum in the last place of a full window passes the bound
   [min_ < 2 * stride] of the code, and fails the comparison of the means *)
Example window_check_last_place :
  window_check 3 (map Fin [6; 5; 4; 3; 2; 1]%R) = Ok false.
Proof.
  destruct (window_check_finite 3 [6; 5; 4; 3; 2; 1]%R) as (c & Hc & Hdip).
  - discriminate.
  - simpl. lia.
  - rewrite Hc. f_equal. destruct c; [| reflexivity].
    destruct Hdip as [Hdip _]. destruct (Hdip eq_refl) as (i & Hi & _ & Hlast & _).
    assert (H5 : min_idx [6; 5; 4; 3; 2; 1]%R 5).
    { split; [simpl; lia |]. split.
      - intros j Hj. simpl in Hj.
        do 6 (destruct j as [| j]; [simpl; lra |]). lia.
      - intros j Hj. do 5 (destruct j as [| j]; [simpl; lra |]). lia. }
    pose proof (min_idx_unique _ _ _ Hi H5). simpl in Hlast. lia.
Qed.

(** * Further properties of the code *)

(** ** The values of the series *)



(** ** The stride *)

Lemma window_of_negative_stride (x : float64) (stride : Z) :
  (stride < 0)%Z -> py_slice_from [x] (- (2 * stride)) = [].
Proof.
  intros Hs. unfold py_slice_from, slice_bound.
  replace (- (2 * stride) <? 0)%Z with false by (symmetry; apply Z.ltb_ge; lia).
  change (length [x]) with 1.
  replace (Nat.min (Z.to_nat (- (2 * stride))) 1) with 1 by lia.
  reflexivity.
Qed.

(** X2: with a negative stride the call raises ValueError on every series
    of two observations or more: at the first split mdl[-(2*stride):] is
    empty, and min() of it raises. *)
Theorem negative_stride_raises :
  forall (Label : Type) (to_datetime : Label -> result Label)
         (time_series : list Z) (time_series_labels : option (list Label))
         (stride : Z) (k : float64),
    (stride < 0)%Z ->
    2 <= length time_series ->
    detect_regime_change to_datetime time_series time_series_labels stride k
    = Raise ValueError.
Proof.
  intros Label to_datetime ts labels stride k Hs Hk.
  unfold detect_regime_change, py_range.
  destruct (length ts - 1) as [| m] eqn:E; [lia |].
  cbn [seq run_loop]. rewrite loop_body_parts.
  destruct (appended_total Label ts k init_state 1) as [x ->]; [now left |].
  cbn [bind]. change (mdl init_state ++ [x]) with [x].
  rewrite (window_of_negative_stride x stride Hs). reflexivity.
Qed.

Lemma negative_stride_raises_witness :
  (-1 < 0)%Z /\
  2 <= length [0; 1; 1]%Z /\
  detect_regime_change (fun l : nat => Ok l) [0; 1; 1]%Z None (-1) (Fin 0.05)
  = Raise ValueError.
Proof.
  assert (H1 : (-1 < 0)%Z) by lia.
  assert (H2 : 2 <= length [0; 1; 1]%Z) by (simpl; lia).
  split; [exact H1 |]. split; [exact H2 |].
  exact (negative_stride_raises nat (fun l : nat => Ok l) [0; 1; 1]%Z None (-1)
           (Fin 0.05) H1 H2).
Defined.

Lemma window_check_stride_0 (w : list float64) (c : bool) :
  window_check 0 w = Ok c -> c = false.
Proof.
  unfold window_check.
  destruct (py_min w) as [m |]; cbn [bind]; [| discriminate].
  destruct (py_index w m) as [j |]; cbn [bind]; [| discriminate].
  intros [= <-].
  replace (Z.of_nat j <? 0)%Z with false by (symmetry; apply Z.ltb_ge; lia).
  now rewrite andb_false_r.
Qed.

Lemma state_after_stride_0 (Label : Type) (to_datetime : Label -> result Label)
  (time_series : list Z) (time_series_labels : option (list Label))
  (k : float64) (n : nat) :
  labels_cover to_datetime time_series time_series_labels ->
  n < length time_series \/ n = 0 ->
  exists st,
    state_after to_datetime time_series time_series_labels 0 k n = Ok st /\
    regime_change_date st = None.
Proof.
  intros Hl. induction n as [| n IH]; intros Hn.
  - exists init_state. split; reflexivity.
  - destruct IH as (st & Hst & Hcp); [lia |].
    destruct (state_after_ok Label to_datetime time_series time_series_labels
                0%Z k n) as (st0 & Hst0 & Hmdl & _); [lia | exact Hl | lia |].
    rewrite Hst in Hst0. injection Hst0 as <-.
    assert (Hne : S n = 1 \/ mdl st <> []).
    { destruct n; [now left | right]. rewrite Hmdl. discriminate. }
    destruct (body_ok Label to_datetime time_series time_series_labels 0%Z k
                st (S n)) as (c & st' & Hc & Hb & _ & Hd);
      [lia | exact Hl | lia | exact Hne |].
    apply window_check_stride_0 in Hc. subst c.
    rewrite andb_false_r in Hd.
    exists st'. rewrite state_after_S, Hst. cbn [bind].
    split; [exact Hb | congruence].
Qed.

(** X3: with stride 0 nothing is ever detected: the window is the whole
    of mdl, no index is below 2*stride = 0, and the call returns the k-1
    values with None as the change point. *)
Theorem zero_stride_never_detects :
  forall (Label : Type) (to_datetime : Label -> result Label)
         (time_series : list Z) (time_series_labels : option (list Label))
         (k : float64),
    labels_fit to_datetime time_series time_series_labels ->
    exists series,
      detect_regime_change to_datetime time_series time_series_labels 0 k
      = Ok (series, None) /\
      length series = length time_series - 1.
Proof.
  intros Label to_datetime ts labels k Hfit.
  destruct (detect_ok _ to_datetime ts labels 0%Z k) as
    (st & keys & Hst & Hmdl & _ & Hkeys & Hret); [lia | exact Hfit |].
  destruct (state_after_stride_0 Label to_datetime ts labels k (length ts - 1))
    as (st0 & Hst0 & Hcp); [now apply labels_fit_cover | lia |].
  rewrite Hst in Hst0. injection Hst0 as <-.
  exists (combine keys (mdl st)). rewrite Hret, Hcp.
  split; [reflexivity |].
  apply Forall2_length in Hkeys. rewrite length_seq in Hkeys.
  rewrite length_combine, Hmdl, length_map, length_seq, <- Hkeys.
  apply Nat.min_id.
Qed.

Lemma zero_stride_never_detects_witness :
  labels_fit (fun l : nat => Ok l) (repeat 1%Z 40) None /\
  exists series,
    detect_regime_change (fun l : nat => Ok l) (repeat 1%Z 40) None 0 (Fin 0.05)
    = Ok (series, None) /\
    length series = length (repeat 1%Z 40) - 1.
Proof.
  assert (H : labels_fit (fun l : nat => Ok l) (repeat 1%Z 40) None) by exact I.
  split; [exact H |].
  exact (zero_stride_never_detects nat (fun l : nat => Ok l) (repeat 1%Z 40)
           None (Fin 0.05) H).
Defined.

(** ** The likelihood and the raw description length *)

Lemma py_sum_app (a b : list Z) : py_sum (a ++ b) = (py_sum a + py_sum b)%Z.
Proof.
  unfold py_sum at 1. rewrite fold_left_app, fold_add_acc. reflexivity.
Qed.

Lemma py_sum_rev (l : list Z) : py_sum (rev l) = py_sum l.
Proof.
  induction l as [| x l IH]; [reflexivity |].
  simpl rev. rewrite py_sum_app, IH, !py_sum_cons.
  unfold py_sum at 2. simpl. lia.
Qed.

Lemma np_mean_depends_on_counts (l l' : list Z) :
  length l = length l' ->
  py_sum l = py_sum l' ->
  np_mean (map F64.of_Z l) = np_mean (map F64.of_Z l').
Proof.
  intros Hlen Hsum.
  destruct l as [| x l]; destruct l' as [| x' l']; try discriminate.
  - reflexivity.
  - rewrite !np_mean_of_Z by discriminate. now rewrite Hlen, Hsum.
Qed.

(** X4: log_likelihood depends on its sequence only through the number of
    observations and the number of heads (their sum): two sequences with
    the same length and the same sum have the same likelihood, whatever
    the order of their values. *)
Theorem log_likelihood_depends_on_counts :
  forall l l' : list Z,
    length l = length l' ->
    py_sum l = py_sum l' ->
    log_likelihood l = log_likelihood l'.
Proof.
  intros l l' Hlen Hsum. unfold log_likelihood.
  rewrite (np_mean_depends_on_counts l l' Hlen Hsum).
  now rewrite Hlen, Hsum.
Qed.

Lemma log_likelihood_depends_on_counts_witness :
  length [0; 1; 1; 0; 1]%Z = length [1; 1; 1; 0; 0]%Z /\
  py_sum [0; 1; 1; 0; 1]%Z = py_sum [1; 1; 1; 0; 0]%Z /\
  log_likelihood [0; 1; 1; 0; 1]%Z = log_likelihood [1; 1; 1; 0; 0]%Z.
Proof.
  assert (H1 : length [0; 1; 1; 0; 1]%Z = length [1; 1; 1; 0; 0]%Z)
    by reflexivity.
  assert (H2 : py_sum [0; 1; 1; 0; 1]%Z = py_sum [1; 1; 1; 0; 0]%Z)
    by reflexivity.
  split; [exact H1 |]. split; [exact H2 |].
  exact (log_likelihood_depends_on_counts [0; 1; 1; 0; 1]%Z [1; 1; 1; 0; 0]%Z
           H1 H2).
Defined.

Lemma loglik_rev (l : list Z) : loglik (rev l) = loglik l.
Proof.
  unfold loglik, log_likelihood.
  rewrite (np_mean_depends_on_counts (rev l) l (length_rev l) (py_sum_rev l)).
  now rewrite length_rev, py_sum_rev.
Qed.

Lemma f64_add_comm (a b : float64) : F64.add a b = F64.add b a.
Proof.
  destruct a, b; simpl; try reflexivity. f_equal. apply Rplus_comm.
Qed.

(** X5: the raw description length is symmetric under a reversal of the
    series: the split n of the observations and the split k-n of the
    reversed observations have the same raw description length. *)
Theorem raw_description_length_of_reversed_series :
  forall (time_series : list Z) (n : nat),
    n <= length time_series ->
    raw (rev time_series) (length time_series - n) = raw time_series n.
Proof.
  intros ts n Hn. unfold raw.
  rewrite firstn_rev, skipn_rev, !loglik_rev, length_rev.
  replace (length ts - (length ts - n)) with n by lia.
  unfold F64.sub.
  rewrite (f64_add_comm (F64.neg (loglik (skipn n ts)))).
  rewrite (f64_add_comm (F64.log (F64.of_Z (Z.of_nat (length ts - n))))).
  reflexivity.
Qed.

Lemma raw_description_length_of_reversed_series_witness :
  2 <= length [0; 0; 1; 0; 1; 1]%Z /\
  raw (rev [0; 0; 1; 0; 1; 1]%Z) (length [0; 0; 1; 0; 1; 1]%Z - 2)
  = raw [0; 0; 1; 0; 1; 1]%Z 2.
Proof.
  assert (H : 2 <= length [0; 0; 1; 0; 1; 1]%Z) by (simpl; lia).
  split; [exact H |].
  exact (raw_description_length_of_reversed_series [0; 0; 1; 0; 1; 1]%Z 2 H).
Defined.

(** ** Which split is reported *)

(* one turn of the scan of a binary series: the change point is assigned
   exactly when none was assigned before, n > 20 and the window has a dip *)
Lemma turn_on_binary (Label : Type) (to_datetime : Label -> result Label)
  (time_series : list Z) (time_series_labels : option (list Label))
  (stride : Z) (kappa : R) (m : nat) :
  binary time_series = true ->
  (0 < stride)%Z ->
  S m < length time_series ->
  labels_cover to_datetime time_series time_series_labels ->
  exists (st st' : state Label) (c : bool),
    state_after to_datetime time_series time_series_labels stride (Fin kappa) m
    = Ok st /\
    state_after to_datetime time_series time_series_labels stride (Fin kappa)
      (S m) = Ok st' /\
    (c = true <-> dip_at time_series (Fin kappa) stride (S m)) /\
    (if (20 <? S m) && is_None (regime_change_date st) && c
     then exists v, names_split time_series_labels (S m) v /\
                    regime_change_date st' = Some v
     else regime_change_date st' = regime_change_date st).
Proof.
  intros Hb Hs Hn Hl.
  destruct (state_after_ok Label to_datetime time_series time_series_labels
              stride (Fin kappa) m) as (st & Hst & Hmdl & _);
    [lia | exact Hl | lia |].
  assert (Hne : S m = 1 \/ mdl st <> []).
  { destruct m; [now left | right]. rewrite Hmdl. discriminate. }
  destruct (body_ok Label to_datetime time_series time_series_labels stride
              (Fin kappa) st (S m)) as (c & st' & Hc & Hbody & Hm & Hd);
    [lia | exact Hl | exact Hn | exact Hne |].
  assert (Hseries : mdl st ++ [next_value time_series (Fin kappa) (mdl st) (S m)]
                    = map (smoothed time_series (Fin kappa)) (seq 1 (S m))).
  { rewrite Hmdl, next_value_smoothed, seq_S, map_app. reflexivity. }
  destruct (smoothed_series_finite time_series kappa (S m) Hb Hn)
    as (W & HW & HWlen).
  set (w := trailing_window (Z.to_nat (2 * stride)) W).
  assert (Hwin : window_at time_series (Fin kappa) stride (S m) = map Fin w).
  { unfold window_at, w. now rewrite HW, trailing_window_map. }
  assert (Hwlen : length w = Nat.min (Z.to_nat (2 * stride)) (S m)).
  { unfold w. now rewrite trailing_window_length, HWlen. }
  destruct (window_check_finite stride w) as (c' & Hc' & Hdip).
  { intros E. apply (f_equal (@length R)) in E.
    change (length (@nil R)) with 0 in E. lia. }
  { lia. }
  rewrite py_slice_from_trailing, Hseries in Hc by exact Hs.
  fold (window_at time_series (Fin kappa) stride (S m)) in Hc.
  rewrite Hwin, Hc' in Hc. injection Hc as ->.
  exists st, st', c. split; [exact Hst |]. split.
  { rewrite state_after_S, Hst. cbn [bind]. exact Hbody. }
  split; [| exact Hd]. split.
  - intros Hc. exists w. split; [now rewrite Hwin | now apply Hdip].
  - intros (w' & Hw' & Hdip'). rewrite Hwin in Hw'.
    apply map_Fin_inj in Hw'. subst w'. now apply Hdip.
Qed.

(* the states of the scan of a binary series: the change point is None
   as long as no window had a dip, and names the first split with one
   from then on *)
Lemma scan_reports_first_dip (Label : Type) (to_datetime : Label -> result Label)
  (time_series : list Z) (time_series_labels : option (list Label))
  (stride : Z) (kappa : R) (n : nat) :
  binary time_series = true ->
  (0 < stride)%Z ->
  labels_cover to_datetime time_series time_series_labels ->
  n < length time_series \/ n = 0 ->
  exists st : state Label,
    state_after to_datetime time_series time_series_labels stride (Fin kappa) n
    = Ok st /\
    ((regime_change_date st = None /\
      forall m, 20 < m -> m <= n -> ~ dip_at time_series (Fin kappa) stride m) \/
     (exists j v,
         regime_change_date st = Some v /\
         names_split time_series_labels j v /\
         20 < j /\ j <= n /\
         dip_at time_series (Fin kappa) stride j /\
         forall m, 20 < m -> m < j -> ~ dip_at time_series (Fin kappa) stride m)).
Proof.
  intros Hb Hs Hl. induction n as [| n IH]; intros Hn.
  - exists init_state. split; [reflexivity |]. left.
    split; [reflexivity |]. intros m H1 H2. lia.
  - destruct IH as (st0 & Hst0 & Hinv); [lia |].
    destruct (turn_on_binary Label to_datetime time_series time_series_labels
                stride kappa n Hb Hs) as (st & st' & c & Hst & Hst' & Hc & Hd);
      [lia | exact Hl |].
    rewrite Hst0 in Hst. injection Hst as <-.
    exists st'. split; [exact Hst' |].
    destruct Hinv as [[Hnone Hno] | (j & v & Hcp & Hv & Hj1 & Hj2 & Hdip & Hmin)].
    + rewrite Hnone in Hd. cbn [is_None] in Hd. rewrite andb_true_r in Hd.
      destruct (Nat.ltb_spec 20 (S n)) as [H20 | H20]; cbn [andb] in Hd.
      * destruct c.
        -- destruct Hd as (v & Hv & Hcp). right. exists (S n), v.
           split; [exact Hcp |]. split; [exact Hv |]. split; [exact H20 |].
           split; [lia |]. split; [now apply Hc |].
           intros m H1 H2. apply Hno; lia.
        -- left. split; [congruence |]. intros m H1 H2.
           destruct (Nat.eq_dec m (S n)) as [-> | Hne].
           ++ intros Hdip. apply Hc in Hdip. discriminate.
           ++ apply Hno; lia.
      * left. split; [congruence |]. intros m H1 H2. lia.
    + rewrite Hcp in Hd. cbn [is_None] in Hd.
      rewrite andb_false_r in Hd. cbn [andb] in Hd.
      right. exists j, v. split; [congruence |]. split; [exact Hv |].
      split; [exact Hj1 |]. split; [lia |]. split; [exact Hdip | exact Hmin].
Qed.



(** X7: on a binary series, labels only rename the result: called with
    k+1 dates as labels and called without labels, detect_regime_change
    returns the same values in the same order, and the one call reports
    labels[n] exactly when the other reports the split n. *)
Theorem labels_only_rename_the_result :
  forall (Label : Type) (to_datetime : Label -> result Label)
         (time_series : list Z) (labels : list Label)
         (stride : Z) (kappa : R),
    binary time_series = true ->
    (0 < stride)%Z ->
    length labels = length time_series + 1 ->
    timestamps to_datetime labels ->
    exists series_l cp_l series_n cp_n,
      detect_regime_change to_datetime time_series (Some labels) stride
        (Fin kappa) = Ok (series_l, cp_l) /\
      detect_regime_change to_datetime time_series None stride (Fin kappa)
      = Ok (series_n, cp_n) /\
      map snd series_l = map snd series_n /\
      (cp_n = None <-> cp_l = None) /\
      (forall n, cp_n = Some (PyInt (Z.of_nat n)) ->
                 exists l, nth_error labels n = Some l /\
                           cp_l = Some (PyLabel l)).
Proof.
  intros Label to_datetime ts ls stride kappa Hb Hs Hlen Hts.
  assert (Hfit : labels_fit to_datetime ts (Some ls)) by (split; assumption).
  destruct (detect_ok _ to_datetime ts (Some ls) stride (Fin kappa)) as
    (sl & keys_l & Hsl & Hmdl_l & _ & Hkeys_l & Hret_l); [lia | exact Hfit |].
  destruct (detect_ok _ to_datetime ts None stride (Fin kappa)) as
    (sn & keys_n & Hsn & Hmdl_n & _ & Hkeys_n & Hret_n); [lia | exact I |].
  destruct (scan_reports_first_dip Label to_datetime ts (Some ls) stride kappa
              (length ts - 1) Hb Hs (labels_fit_cover _ _ _ _ Hfit))
    as (sl0 & Hsl0 & Hinv_l); [lia |].
  destruct (scan_reports_first_dip Label to_datetime ts None stride kappa
              (length ts - 1) Hb Hs I) as (sn0 & Hsn0 & Hinv_n); [lia |].
  rewrite Hsl in Hsl0. injection Hsl0 as <-.
  rewrite Hsn in Hsn0. injection Hsn0 as <-.
  apply Forall2_length in Hkeys_l, Hkeys_n. rewrite length_seq in Hkeys_l, Hkeys_n.
  exists (combine keys_l (mdl sl)), (regime_change_date sl),
         (combine keys_n (mdl sn)), (regime_change_date sn).
  split; [exact Hret_l |]. split; [exact Hret_n |]. split.
  { rewrite !snd_combine; [congruence | |];
      rewrite ?Hmdl_l, ?Hmdl_n, length_map, length_seq; lia. }
  destruct Hinv_l as [[Hl_none Hl_no] | (j & v & Hl_cp & Hl_v & Hj1 & Hj2 & Hl_dip & Hl_min)];
    destruct Hinv_n as [[Hn_none Hn_no] | (i & u & Hn_cp & Hn_u & Hi1 & Hi2 & Hn_dip & Hn_min)].
  - rewrite Hl_none, Hn_none. split; [tauto | discriminate].
  - exfalso. apply (Hl_no i); assumption.
  - exfalso. apply (Hn_no j); assumption.
  - assert (i = j).
    { destruct (Nat.lt_trichotomy i j) as [H | [H | H]]; [| exact H |].
      - exfalso. apply (Hl_min i); assumption.
      - exfalso. apply (Hn_min j); assumption. }
    subst i. simpl in Hn_u. subst u. rewrite Hl_cp, Hn_cp.
    split; [split; discriminate |].
    intros n [= E]. apply Nat2Z.inj in E. subst n.
    destruct Hl_v as (l & Hl & ->). exists l. split; [exact Hl | reflexivity].
Qed.

Lemma labels_only_rename_the_result_witness :
  binary [0; 1; 1; 0]%Z = true /\
  (0 < 6)%Z /\
  length [10; 11; 12; 13; 14] = length [0; 1; 1; 0]%Z + 1 /\
  timestamps (fun l : nat => Ok l) [10; 11; 12; 13; 14] /\
  exists series_l cp_l series_n cp_n,
    detect_regime_change (fun l : nat => Ok l) [0; 1; 1; 0]%Z
      (Some [10; 11; 12; 13; 14]) 6 (Fin 0.05) = Ok (series_l, cp_l) /\
    detect_regime_change (fun l : nat => Ok l) [0; 1; 1; 0]%Z None 6 (Fin 0.05)
    = Ok (series_n, cp_n) /\
    map snd series_l = map snd series_n /\
    (cp_n = None <-> cp_l = None) /\
    (forall n, cp_n = Some (PyInt (Z.of_nat n)) ->
               exists l, nth_error [10; 11; 12; 13; 14] n = Some l /\
                         cp_l = Some (PyLabel l)).
Proof.
  assert (H1 : binary [0; 1; 1; 0]%Z = true) by reflexivity.
  assert (H2 : (0 < 6)%Z) by lia.
  assert (H3 : length [10; 11; 12; 13; 14] = length [0; 1; 1; 0]%Z + 1)
    by reflexivity.
  assert (H4 : timestamps (fun l : nat => Ok l) [10; 11; 12; 13; 14])
    by (intros l _; reflexivity).
  split; [exact H1 |]. split; [exact H2 |]. split; [exact H3 |].
  split; [exact H4 |].
  exact (labels_only_rename_the_result nat (fun l : nat => Ok l) [0; 1; 1; 0]%Z
           [10; 11; 12; 13; 14] 6 0.05 H1 H2 H3 H4).
Defined.

(** ** The smoothing factor *)

Lemma smoothed_with_factor_0 (time_series : list Z) (n : nat) :
  binary time_series = true ->
  1 <= n -> n < length time_series ->
  smoothed time_series (Fin 0) n = raw time_series 1.
Proof.
  intros Hb. induction n as [| m IH]; intros H1 Hn; [lia |].
  destruct m as [| m']; [reflexivity |].
  rewrite smoothed_step, IH by lia.
  destruct (raw_finite time_series 1 Hb) as [r1 ->]; [lia | lia |].
  destruct (raw_finite time_series (S (S m')) Hb) as [r ->]; [lia | exact Hn |].
  simpl. f_equal. lra.
Qed.

(* a window of equal values has no dip *)
Lemma constant_window_has_no_dip (w : list R) (x : R) :
  (forall v, In v w -> v = x) -> ~ dip w.
Proof.
  intros Hw (i & (Hi & _ & Hfirst) & Hpos & _).
  specialize (Hfirst 0 Hpos).
  rewrite (Hw (nth i w 0%R)) in Hfirst by (apply nth_In; exact Hi).
  rewrite (Hw (nth 0 w 0%R)) in Hfirst by (apply nth_In; lia).
  lra.
Qed.

(** X8: with the smoothing factor 0 the scan of a binary series is
    switched off: every value of the returned series is the raw
    description length of the first split, and the change point is
    None. *)
Theorem smoothing_factor_0_detects_nothing :
  forall (Label : Type) (to_datetime : Label -> result Label)
         (time_series : list Z) (time_series_labels : option (list Label))
         (stride : Z),
    binary time_series = true ->
    (0 < stride)%Z ->
    labels_fit to_datetime time_series time_series_labels ->
    exists series,
      detect_regime_change to_datetime time_series time_series_labels stride
        (Fin 0) = Ok (series, None) /\
      forall key value, In (key, value) series -> value = raw time_series 1.
Proof.
  intros Label to_datetime ts labels stride Hb Hs Hfit.
  destruct (detect_ok _ to_datetime ts labels stride (Fin 0)) as
    (st & keys & Hst & Hmdl & _ & _ & Hret); [lia | exact Hfit |].
  destruct (scan_reports_first_dip Label to_datetime ts labels stride 0
              (length ts - 1) Hb Hs (labels_fit_cover _ _ _ _ Hfit))
    as (st0 & Hst0 & Hinv); [lia |].
  rewrite Hst in Hst0. injection Hst0 as <-.
  assert (Hconst : forall n v,
             n < length ts ->
             In v (map (smoothed ts (Fin 0)) (seq 1 n)) -> v = raw ts 1).
  { intros n v Hn Hin. apply in_map_iff in Hin as (j & <- & Hj).
    apply in_seq in Hj. apply smoothed_with_factor_0; [exact Hb | lia | lia]. }
  exists (combine keys (mdl st)). split.
  - rewrite Hret. f_equal. f_equal.
    destruct Hinv as [[Hnone _] | (j & v & _ & _ & Hj1 & Hj2 & Hdip & _)];
      [exact Hnone |].
    exfalso. destruct Hdip as (w & Hw & Hdip).
    destruct (raw_finite ts 1 Hb) as [r1 Hr1]; [lia | lia |].
    apply (constant_window_has_no_dip w r1); [| exact Hdip].
    intros x Hx. apply (in_map Fin) in Hx. rewrite Hw in Hx.
    unfold window_at, trailing_window in Hx. apply In_skipn in Hx.
    apply (Hconst j) in Hx; [| lia]. congruence.
  - intros key value Hin. apply in_combine_r in Hin. rewrite Hmdl in Hin.
    destruct (Nat.eq_dec (length ts) 0) as [E | E].
    + rewrite E in Hin. contradiction.
    + apply (Hconst (length ts - 1)); [lia | exact Hin].
Qed.

Lemma smoothing_factor_0_detects_nothing_witness :
  binary (repeat 0%Z 20 ++ repeat 1%Z 20) = true /\
  (0 < 6)%Z /\
  labels_fit (fun l : nat => Ok l) (repeat 0%Z 20 ++ repeat 1%Z 20) None /\
  exists series,
    detect_regime_change (fun l : nat => Ok l) (repeat 0%Z 20 ++ repeat 1%Z 20)
      None 6 (Fin 0) = Ok (series, None) /\
    forall key value,
      In (key, value) series -> value = raw (repeat 0%Z 20 ++ repeat 1%Z 20) 1.
Proof.
  assert (H1 : binary (repeat 0%Z 20 ++ repeat 1%Z 20) = true) by reflexivity.
  assert (H2 : (0 < 6)%Z) by lia.
  assert (H3 : labels_fit (fun l : nat => Ok l)
                 (repeat 0%Z 20 ++ repeat 1%Z 20) None) by exact I.
  split; [exact H1 |]. split; [exact H2 |]. split; [exact H3 |].
  exact (smoothing_factor_0_detects_nothing nat (fun l : nat => Ok l)
           (repeat 0%Z 20 ++ repeat 1%Z 20) None 6 H1 H2 H3).
Defined.

(** X9: with the smoothing factor 1 nothing is smoothed: on a binary
    series the values of the returned series are the raw description
    lengths of the splits 1, ..., k-1. *)
Theorem smoothing_factor_1_returns_the_raw_values :
  forall (Label : Type) (to_datetime : Label -> result Label)
         (time_series : list Z) (time_series_labels : option (list Label))
         (stride : Z),
    binary time_series = true ->
    (0 < stride)%Z ->
    labels_fit to_datetime time_series time_series_labels ->
    exists series change_point,
      detect_regime_change to_datetime time_series time_series_labels stride
        (Fin 1) = Ok (series, change_point) /\
      map snd series = map (raw time_series) (seq 1 (length time_series - 1)).
Proof.
  intros Label to_datetime ts labels stride Hb Hs Hfit.
  destruct (detect_ok _ to_datetime ts labels stride (Fin 1)) as
    (st & keys & _ & Hmdl & _ & Hkeys & Hret); [lia | exact Hfit |].
  apply Forall2_length in Hkeys. rewrite length_seq in Hkeys.
  exists (combine keys (mdl st)), (regime_change_date st).
  split; [exact Hret |].
  rewrite snd_combine by (rewrite Hmdl, length_map, length_seq; lia).
  rewrite Hmdl. apply map_ext_in. intros n Hn. apply in_seq in Hn.
  apply smoothed_with_factor_1; [exact Hb | lia | lia].
Qed.

Lemma smoothing_factor_1_returns_the_raw_values_witness :
  binary [1; 0; 0; 1; 1]%Z = true /\
  (0 < 6)%Z /\
  labels_fit (fun l : nat => Ok l) [1; 0; 0; 1; 1]%Z None /\
  exists series change_point,
    detect_regime_change (fun l : nat => Ok l) [1; 0; 0; 1; 1]%Z None 6 (Fin 1)
    = Ok (series, change_point) /\
    map snd series
    = map (raw [1; 0; 0; 1; 1]%Z) (seq 1 (length [1; 0; 0; 1; 1]%Z - 1)).
Proof.
  assert (H1 : binary [1; 0; 0; 1; 1]%Z = true) by reflexivity.
  assert (H2 : (0 < 6)%Z) by lia.
  assert (H3 : labels_fit (fun l : nat => Ok l) [1; 0; 0; 1; 1]%Z None)
    by exact I.
  split; [exact H1 |]. split; [exact H2 |]. split; [exact H3 |].
  exact (smoothing_factor_1_returns_the_raw_values nat (fun l : nat => Ok l)
           [1; 0; 0; 1; 1]%Z None 6 H1 H2 H3).
Defined.

(** ** synthetic_coin_generator *)

Lemma coin_loop_yields (random : nat -> float64) (probabilities : list float64)
  (breakpoint : Z) (indices : list nat) :
  2 <= length probabilities ->
  exists l,
    coin_loop random probabilities breakpoint indices = Yields l /\
    length l = length indices /\
    binary l = true /\
    forall j, j < length indices ->
      nth j l 0%Z =
      if f64_leb (random (nth j indices 0))
           (nth (if (breakpoint <=? Z.of_nat (nth j indices 0%nat))%Z
                 then 1 else 0)
                probabilities NaN)
      then 1%Z else 0%Z.
Proof.
  intros Hp. induction indices as [| i rest IH].
  - exists []. repeat split. intros j Hj. simpl in Hj. lia.
  - destruct IH as (l & Hl & Hlen & Hbin & Hnth). simpl coin_loop.
    set (side := if (breakpoint <=? Z.of_nat i)%Z then 1 else 0).
    assert (Hside : side < length probabilities)
      by (unfold side; destruct (breakpoint <=? Z.of_nat i)%Z; lia).
    rewrite (nth_error_nth' probabilities NaN Hside), Hl.
    eexists. split; [reflexivity |]. split; [simpl; now rewrite Hlen |]. split.
    + simpl. rewrite Hbin. now destruct (f64_leb _ _).
    + intros [| j] Hj; [reflexivity |]. simpl in Hj. simpl. apply Hnth. lia.
Qed.

(** X10: synthetic_coin_generator, given two probabilities, raises its
    exception exactly when the breakpoint is not strictly between 0 and
    k. *)
Theorem generator_rejects_the_breakpoint :
  forall (random : nat -> float64) (probabilities : list float64)
         (breakpoint k : Z),
    2 <= length probabilities ->
    (synthetic_coin_generator random probabilities breakpoint k
     = Fails BreakpointException
     <-> (breakpoint <= 0 \/ k <= breakpoint)%Z).
Proof.
  intros random ps b k Hp. unfold synthetic_coin_generator.
  destruct (Z.leb_spec b 0) as [H0 | H0]; cbn [orb].
  - split; [intros _; now left | reflexivity].
  - destruct (Z.leb_spec k b) as [Hk | Hk].
    + split; [intros _; now right | reflexivity].
    + destruct (coin_loop_yields random ps b (py_range 0 (Z.to_nat k)) Hp)
        as (l & -> & _).
      split; [discriminate | lia].
Qed.

Lemma generator_rejects_the_breakpoint_witness :
  2 <= length [Fin 0.1; Fin 0.9] /\
  (synthetic_coin_generator (fun _ => Fin 0.5) [Fin 0.1; Fin 0.9] 100 100
   = Fails BreakpointException
   <-> (100 <= 0 \/ 100 <= 100)%Z).
Proof.
  assert (H : 2 <= length [Fin 0.1; Fin 0.9]) by (simpl; lia).
  split; [exact H |].
  exact (generator_rejects_the_breakpoint (fun _ => Fin 0.5)
           [Fin 0.1; Fin 0.9] 100 100 H).
Defined.

(** X11: for a breakpoint strictly between 0 and k, the generator yields
    k values, each 0 or 1; the value number i is 1 exactly when the
    random number drawn for it is at most probabilities[0], for
    i < breakpoint, and at most probabilities[1] from the breakpoint
    on. *)
Theorem generator_yields_two_regimes :
  forall (random : nat -> float64) (probabilities : list float64)
         (breakpoint k : Z),
    2 <= length probabilities ->
    (0 < breakpoint)%Z ->
    (breakpoint < k)%Z ->
    exists l,
      synthetic_coin_generator random probabilities breakpoint k = Yields l /\
      Z.of_nat (length l) = k /\
      binary l = true /\
      forall i, i < length l ->
        nth i l 0%Z =
        if f64_leb (random i)
             (if (Z.of_nat i <? breakpoint)%Z then nth 0 probabilities NaN
              else nth 1 probabilities NaN)
        then 1%Z else 0%Z.
Proof.
  intros random ps b k Hp H0 Hk. unfold synthetic_coin_generator.
  replace (b <=? 0)%Z with false by (symmetry; apply Z.leb_gt; lia).
  replace (k <=? b)%Z with false by (symmetry; apply Z.leb_gt; lia).
  cbn [orb].
  destruct (coin_loop_yields random ps b (py_range 0 (Z.to_nat k)) Hp)
    as (l & Hl & Hlen & Hbin & Hnth).
  rewrite py_range_length, Nat.sub_0_r in Hlen.
  exists l. split; [exact Hl |]. split; [lia |]. split; [exact Hbin |].
  intros i Hi. rewrite Hnth by (rewrite py_range_length; lia).
  unfold py_range. rewrite seq_nth by lia. simpl (0 + i).
  destruct (Z.leb_spec b (Z.of_nat i)); destruct (Z.ltb_spec (Z.of_nat i) b);
    try lia; reflexivity.
Qed.

Lemma generator_yields_two_regimes_witness :
  2 <= length [Fin 0.1; Fin 0.9] /\
  (0 < 50)%Z /\
  (50 < 100)%Z /\
  exists l,
    synthetic_coin_generator (fun _ => Fin 0.5) [Fin 0.1; Fin 0.9] 50 100
    = Yields l /\
    Z.of_nat (length l) = 100%Z /\
    binary l = true /\
    forall i, i < length l ->
      nth i l 0%Z =
      if f64_leb (Fin 0.5)
           (if (Z.of_nat i <? 50)%Z then nth 0 [Fin 0.1; Fin 0.9] NaN
            else nth 1 [Fin 0.1; Fin 0.9] NaN)
      then 1%Z else 0%Z.
Proof.
  assert (H1 : 2 <= length [Fin 0.1; Fin 0.9]) by (simpl; lia).
  assert (H2 : (0 < 50)%Z) by lia.
  assert (H3 : (50 < 100)%Z) by lia.
  split; [exact H1 |]. split; [exact H2 |]. split; [exact H3 |].
  exact (generator_yields_two_regimes (fun _ => Fin 0.5) [Fin 0.1; Fin 0.9]
           50 100 H1 H2 H3).
Defined.



(** ** StockDataGenerator.closing_prices *)

Lemma up_down_ok {Price : Type} (price_gt : Price -> Price -> bool)
  (close : list Price) (indices : list nat) :
  (forall i, In i indices -> 1 <= i /\ i < length close) ->
  exists l,
    up_down price_gt close indices = Ok l /\
    length l = length indices /\
    binary l = true /\
    forall j a b,
      j < length indices ->
      nth_error close (nth j indices 0) = Some a ->
      nth_error close (nth j indices 0 - 1) = Some b ->
      nth_error l j = Some (if price_gt a b then 1%Z else 0%Z).
Proof.
  induction indices as [| i rest IH]; intros Hin.
  - exists []. repeat split. intros j a b Hj. simpl in Hj. lia.
  - destruct IH as (l & Hl & Hlen & Hbin & Hnth).
    { intros j Hj. apply Hin. now right. }
    destruct (Hin i (or_introl eq_refl)) as [Hi1 Hi2].
    destruct (nth_error close i) as [a |] eqn:Ea;
      [| apply nth_error_None in Ea; lia].
    destruct (nth_error close (i - 1)) as [b |] eqn:Eb;
      [| apply nth_error_None in Eb; lia].
    simpl up_down. unfold py_getitem. rewrite Ea, Eb. cbn [bind].
    rewrite Hl. cbn [bind]. eexists. split; [reflexivity |].
    split; [simpl; now rewrite Hlen |]. split.
    + simpl. rewrite Hbin. now destruct (price_gt a b).
    + intros [| j] a' b' Hj Ha Hb.
      * simpl in Ha, Hb. rewrite Ea in Ha. rewrite Eb in Hb.
        injection Ha as <-. injection Hb as <-. reflexivity.
      * simpl in *. apply Hnth; [lia | exact Ha | exact Hb].
Qed.

(** X13: closing_prices (real=False), on the m rows that the selection
    leaves, raises nothing and returns m-1 indicators, each 0 or 1,
    with the m dates of the rows as labels: one label more than
    indicators.  The indicator number i is 1 exactly when the close of
    row i+1 is above the close of row i. *)
Theorem closing_prices_returns_moves_and_dates :
  forall (Date Price DateLabel : Type) (price_gt : Price -> Price -> bool)
         (date_label : Date -> DateLabel) (data_subset : list (Date * Price)),
    exists indicators,
      closing_prices price_gt date_label data_subset
      = Ok (indicators, map date_label (map fst data_subset)) /\
      length indicators = length data_subset - 1 /\
      binary indicators = true /\
      forall i a b,
        nth_error (map snd data_subset) (S i) = Some a ->
        nth_error (map snd data_subset) i = Some b ->
        nth_error indicators i = Some (if price_gt a b then 1%Z else 0%Z).
Proof.
  intros Date Price DateLabel price_gt date_label ds.
  destruct (up_down_ok price_gt (map snd ds) (py_range 1 (length ds)))
    as (l & Hl & Hlen & Hbin & Hnth).
  { intros i Hi. apply in_seq in Hi. rewrite length_map. lia. }
  rewrite py_range_length in Hlen.
  exists l. unfold closing_prices. rewrite Hl. cbn [bind].
  split; [reflexivity |]. split; [exact Hlen |]. split; [exact Hbin |].
  intros i a b Ha Hb.
  assert (Hi : S i < length ds).
  { rewrite <- (length_map snd). apply nth_error_Some. congruence. }
  apply Hnth.
  - rewrite py_range_length. lia.
  - unfold py_range. rewrite seq_nth by lia. exact Ha.
  - unfold py_range. rewrite seq_nth by lia.
    replace (1 + i - 1) with i by lia. exact Hb.
Qed.



Lemma coin_loop_fails_on_index_only (random : nat -> float64)
  (probabilities : list float64) (breakpoint : Z) (indices : list nat)
  (e : source_exn) :
  coin_loop random probabilities breakpoint indices = Fails e ->
  e = TupleIndexError.
Proof.
  induction indices as [| i rest IH]; simpl; [discriminate |].
  destruct (nth_error probabilities _); [| now intros [= <-]].
  destruct (coin_loop random probabilities breakpoint rest);
    [discriminate |].
  intros [= <-]. now apply IH.
Qed.

Lemma coin_loop_needs_both_probabilities (random : nat -> float64)
  (probabilities : list float64) (breakpoint : Z) (indices : list nat)
  (l : list Z) (i : nat) :
  coin_loop random probabilities breakpoint indices = Yields l ->
  In i indices ->
  (breakpoint <= Z.of_nat i)%Z ->
  2 <= length probabilities.
Proof.
  revert l. induction indices as [| j rest IH]; intros l Hl Hi Hb;
    [contradiction |].
  simpl in Hl.
  destruct (nth_error probabilities _) as [p |] eqn:Ep; [| discriminate].
  destruct (coin_loop random probabilities breakpoint rest) as [l' |] eqn:El;
    [| discriminate].
  destruct Hi as [-> | Hi]; [| now apply (IH l')].
  replace (breakpoint <=? Z.of_nat i)%Z with true in Ep
    by (symmetry; apply Z.leb_le; exact Hb).
  assert (H : nth_error probabilities 1 <> None) by congruence.
  apply nth_error_Some in H. exact H.
Qed.

(** X15: given fewer than two probabilities and a breakpoint strictly
    between 0 and k, the generator fails with an IndexError: the value
    at the breakpoint asks for probabilities[1]. *)
Theorem generator_needs_two_probabilities :
  forall (random : nat -> float64) (probabilities : list float64)
         (breakpoint k : Z),
    length probabilities < 2 ->
    (0 < breakpoint)%Z ->
    (breakpoint < k)%Z ->
    synthetic_coin_generator random probabilities breakpoint k
    = Fails TupleIndexError.
Proof.
  intros random ps b k Hp H0 Hk. unfold synthetic_coin_generator.
  replace (b <=? 0)%Z with false by (symmetry; apply Z.leb_gt; lia).
  replace (k <=? b)%Z with false by (symmetry; apply Z.leb_gt; lia).
  cbn [orb].
  destruct (coin_loop random ps b (py_range 0 (Z.to_nat k))) as [l | e] eqn:E.
  - exfalso.
    assert (2 <= length ps); [| lia].
    apply (coin_loop_needs_both_probabilities random ps b _ l (Z.to_nat b) E).
    + unfold py_range. apply in_seq. lia.
    + lia.
  - f_equal. eapply coin_loop_fails_on_index_only. exact E.
Qed.

Lemma generator_needs_two_probabilities_witness :
  length [Fin 0.5] < 2 /\
  (0 < 3)%Z /\
  (3 < 10)%Z /\
  synthetic_coin_generator (fun _ => Fin 0.5) [Fin 0.5] 3 10
  = Fails TupleIndexError.
Proof.
  assert (H1 : length [Fin 0.5] < 2) by (simpl; lia).
  assert (H2 : (0 < 3)%Z) by lia.
  assert (H3 : (3 < 10)%Z) by lia.
  split; [exact H1 |]. split; [exact H2 |]. split; [exact H3 |].
  exact (generator_needs_two_probabilities (fun _ => Fin 0.5) [Fin 0.5] 3 10
           H1 H2 H3).
Defined.
